(** * glance/api/v2/tasks.py: the tasks resource of the v2 API

    The request deserializer, the controller and the response serializer
    of the tasks endpoint, embedded as functions, with the properties the
    specification states about them. *)

From Stdlib Require Import ZArith.
From stdpp Require Import gmap strings list fin_maps.

Local Open Scope string_scope.

(** ** Values

    A decoded JSON document, as [json.loads] hands it to the code: [null]
    is Python's [None], an object is a [dict] with string keys. *)

#[local] Set Warnings "-register-all".

Inductive json : Type :=
| JNull
| JBool (b : bool)
| JInt (n : Z)
| JFloat (literal : string)
| JStr (s : string)
| JArr (items : list json)
| JObj (members : gmap string json).

Abbreviation dict := (gmap string json).

(** ** Exceptions

    The exception classes the file raises, catches or lets through.
    [Forbidden] stands for [glance.common.exception.Forbidden] and carries
    the text [unicode(e)] renders; the two [HTTP...] classes are webob's and
    carry their [explanation]. *)

Inductive exn : Type :=
| HTTPBadRequest (explanation : string)
| HTTPForbidden (explanation : string)
| Forbidden (text : string)
| NotFound (text : string)
| KeyError (key : string)
| TypeError
| AttributeError
| OtherError (cls text : string).

(** The HTTP status webob attaches to its exception classes. *)
Definition status_code (e : exn) : option Z :=
  match e with
  | HTTPBadRequest _ => Some 400%Z
  | HTTPForbidden _ => Some 403%Z
  | _ => None
  end.

Definition is_client_error (e : exn) : Prop :=
  exists c, status_code e = Some c /\ (400 <= c < 500)%Z.

(** A Python call either returns a value or raises. *)
Inductive result (A : Type) : Type :=
| Return (a : A)
| Raise (e : exn).

Arguments Return {A} a.
Arguments Raise {A} e.

#[global] Instance result_ret : MRet result := fun _ a => Return a.
#[global] Instance result_bind : MBind result := fun _ _ f r =>
  match r with
  | Return a => f a
  | Raise e => Raise e
  end.

(** ** Python operators on decoded JSON *)

(** [needle in haystack] on two strings: substring test. *)
Fixpoint is_substring (needle haystack : string) : bool :=
  String.prefix needle haystack ||
  match haystack with
  | EmptyString => false
  | String _ rest => is_substring needle rest
  end.

(** [key in container] for a [str] key. A dict answers by key, a list by
    element equality, a string by substring; the other values are not
    iterable. *)
Definition py_in (key : string) (container : json) : result bool :=
  match container with
  | JObj d => Return (bool_decide (is_Some (d !! key)))
  | JArr l =>
      Return (existsb (fun x => match x with
                                | JStr s => String.eqb s key
                                | _ => false
                                end) l)
  | JStr s => Return (is_substring key s)
  | JNull | JBool _ | JInt _ | JFloat _ => Raise TypeError
  end.

(** [container.pop(key)] for a [str] key: the value and the container
    after the removal. [dict.pop] raises [KeyError] on a missing key,
    [list.pop] wants an integer, the other values have no [pop]. *)
Definition py_pop (key : string) (container : json) : result (json * json) :=
  match container with
  | JObj d =>
      match d !! key with
      | Some v => Return (v, JObj (delete key d))
      | None => Raise (KeyError key)
      end
  | JArr _ => Raise TypeError
  | JNull | JBool _ | JInt _ | JFloat _ | JStr _ => Raise AttributeError
  end.

(** ** RequestDeserializer *)

Module RequestDeserializer.
Section Deserializer.

(** The inbound request, the superclass method
    [wsgi.JSONRequestDeserializer.default] that decodes it, and the
    message catalogue lookup [_]; all three live outside this file. *)
Variable Request : Type.
Variable default : Request -> result dict.
Variable gettext : string -> string.

Definition _disallowed_properties : list string :=
  ["direct_url"; "self"; "file"; "schema"].

Definition _base_properties : list string :=
  ["type"; "status"; "owner"].

Definition _get_request_body (request : Request) : result json :=
  output ← default request;
  match output !! "body" with
  | None => Raise (HTTPBadRequest (gettext "Body expected in request."))
  | Some body => Return body
  end.

Definition read_only_message (key : string) : string :=
  "Attribute '" +:+ key +:+ "' is read-only.".

(** The [for key in cls._disallowed_properties] loop. *)
Fixpoint check_keys (keys : list string) (task : json) : result unit :=
  match keys with
  | [] => Return tt
  | key :: rest =>
      found ← py_in key task;
      if (found : bool)
      then Raise (HTTPForbidden (read_only_message key))
      else check_keys rest task
  end.

Definition _check_allowed (task : json) : result unit :=
  check_keys _disallowed_properties task.

(** One round of the [for key in self._base_properties] loop: the state
    is the [task] dict being filled and the [properties] object, which
    is the body itself and loses what is popped. Only [KeyError] is
    caught. *)
Definition pop_into (st : dict * json) (key : string) : result (dict * json) :=
  match py_pop key (snd st) with
  | Return (v, properties) => Return (<[key := v]> (fst st), properties)
  | Raise (KeyError _) => Return st
  | Raise e => Raise e
  end.

Fixpoint pop_all (keys : list string) (st : dict * json) : result (dict * json) :=
  match keys with
  | [] => Return st
  | key :: rest => st' ← pop_into st key; pop_all rest st'
  end.

(** [create] up to its last line: the [task] dict and what is left of
    the body. *)
Definition create_state (request : Request) : result (dict * json) :=
  body ← _get_request_body request;
  _ ← _check_allowed body;
  pop_all _base_properties (∅, body).

(** [create]: the keyword arguments handed to the controller,
    [dict(task=task)]. *)
Definition create (request : Request) : result (gmap string dict) :=
  st ← create_state request;
  Return {[ "task" := fst st ]}.

End Deserializer.

Arguments _get_request_body {Request} default gettext request.
Arguments create_state {Request} default gettext request.
Arguments create {Request} default gettext request.

End RequestDeserializer.

(** ** Programs over the gateway

    The controller does nothing by itself: every line is a call into an
    object the gateway hands out (task factory, task repository, task).
    A controller method is therefore a tree of such calls; what a call
    answers, and what it does to the world, is the business of whoever
    runs the tree. *)

Module TasksController.
Section Controller.

(** The request with its security context, the identifier the router
    extracts from the URL, and the three kinds of objects of the domain
    layer. *)
Context {Request RequestContext TaskId Factory Repo Task : Type}.
Variable context : Request -> RequestContext.

(** The calls the controller makes, indexed by what they return. *)
Inductive call : Type -> Type :=
| get_task_factory (ctx : RequestContext) : call Factory
| get_task_repo (ctx : RequestContext) : call Repo
| new_task (f : Factory) (req : Request) (task : dict) : call Task
| repo_add (r : Repo) (t : Task) : call unit
| repo_list (r : Repo) : call (list Task)
| repo_get (r : Repo) (task_id : TaskId) : call Task
| repo_save (r : Repo) (t : Task) : call unit
| task_run (t : Task) : call unit
| task_remove (t : Task) : call unit.

Inductive prog (A : Type) : Type :=
| Done (a : A)
| Throw (e : exn)
| Call {X : Type} (c : call X) (k : result X -> prog A).

Arguments Done {A} a.
Arguments Throw {A} e.
Arguments Call {A X} c k.

Fixpoint prog_bind {A B : Type} (f : A -> prog B) (p : prog A) : prog B :=
  match p with
  | Done a => f a
  | Throw e => Throw e
  | Call c k => Call c (fun r => prog_bind f (k r))
  end.

#[global] Instance prog_mret : MRet prog := fun _ a => Done a.
#[global] Instance prog_mbind : MBind prog := fun _ _ f p => prog_bind f p.

(** A plain call: what it raises propagates. *)
Definition invoke {X : Type} (c : call X) : prog X :=
  Call c (fun r => match r with
                   | Return x => Done x
                   | Raise e => Throw e
                   end).

(** [try: p except ...: handler]. *)
Fixpoint try_except {A : Type} (p : prog A) (handler : exn -> prog A) : prog A :=
  match p with
  | Done a => Done a
  | Throw e => handler e
  | Call c k => Call c (fun r => try_except (k r) handler)
  end.

(** *** TasksController *)

(** The decorator [utils.mutating] is defined outside this file. It is
    taken as a guard that runs before the method body: it either
    refuses the request with an error or lets the body run as it is. *)
Variable mutating_refusal : Request -> option exn.

Definition mutating {A : Type} (req : Request) (body : prog A) : prog A :=
  match mutating_refusal req with
  | Some e => Throw e
  | None => body
  end.

(** The three statements inside [try] of [create]. *)
Definition create_steps (task_factory : Factory) (task_repo : Repo)
    (req : Request) (task : dict) : prog Task :=
  task ← invoke (new_task task_factory req task);
  _ ← invoke (repo_add task_repo task);
  _ ← invoke (task_run task);
  mret task.

(** [except exception.Forbidden as e:
       raise webob.exc.HTTPForbidden(explanation=unicode(e))] *)
Definition forbidden_to_http (e : exn) : prog Task :=
  match e with
  | Forbidden text => Throw (HTTPForbidden text)
  | _ => Throw e
  end.

Definition create (req : Request) (task : dict) : prog Task :=
  mutating req (
    task_factory ← invoke (get_task_factory (context req));
    task_repo ← invoke (get_task_repo (context req));
    try_except (create_steps task_factory task_repo req task)
               forbidden_to_http).

Definition index (req : Request) : prog (list Task) :=
  task_repo ← invoke (get_task_repo (context req));
  invoke (repo_list task_repo).

Definition get (req : Request) (task_id : TaskId) : prog Task :=
  task_repo ← invoke (get_task_repo (context req));
  invoke (repo_get task_repo task_id).

Definition kill (req : Request) (task_id : TaskId) : prog Task :=
  task_repo ← invoke (get_task_repo (context req));
  task ← invoke (repo_get task_repo task_id);
  _ ← invoke (task_remove task);
  _ ← invoke (repo_save task_repo task);
  mret task.

(** *** Running a program

    A gateway over a world [W] answers every call with the world it
    leaves and a value or an exception. Running a program threads the
    world through and records the calls made, in order. *)

Inductive event : Type :=
| Called {X : Type} (c : call X).

Definition gateway (W : Type) : Type :=
  forall X : Type, call X -> W -> W * result X.

Record outcome (W A : Type) : Type := Outcome {
  world : W;
  trace : list event;
  returned : result A;
}.
Arguments Outcome {W A} world trace returned.
Arguments world {W A} o.
Arguments trace {W A} o.
Arguments returned {W A} o.

Definition logged {W A : Type} (ev : event) (o : outcome W A) : outcome W A :=
  Outcome (world o) (ev :: trace o) (returned o).

Fixpoint run {W A : Type} (g : gateway W) (p : prog A) (w : W) : outcome W A :=
  match p with
  | Done a => Outcome w [] (Return a)
  | Throw e => Outcome w [] (Raise e)
  | Call c k =>
      let '(w', r) := g _ c w in
      logged (Called c) (run g (k r) w')
  end.

(** The outcome of a program followed by [f] on what it returns. *)
Definition then_run {W A B : Type} (g : gateway W) (o : outcome W A)
    (f : A -> prog B) : outcome W B :=
  match returned o with
  | Return a =>
      let o' := run g (f a) (world o) in
      Outcome (world o') (trace o ++ trace o') (returned o')
  | Raise e => Outcome (world o) (trace o) (Raise e)
  end.

(** Calls that only look: handing out the factory or the repository,
    listing the tasks, fetching one. *)
Definition reads (ev : event) : bool :=
  match ev with
  | Called c =>
      match c with
      | get_task_factory _ | get_task_repo _ | repo_list _ | repo_get _ _ => true
      | _ => false
      end
  end.

(** [task_repo.save(...)]. *)
Definition saves (ev : event) : bool :=
  match ev with
  | Called c =>
      match c with
      | repo_save _ _ => true
      | _ => false
      end
  end.

End Controller.

Arguments call : clear implicits.
Arguments prog : clear implicits.
Arguments Done {Request RequestContext TaskId Factory Repo Task A} a.
Arguments Throw {Request RequestContext TaskId Factory Repo Task A} e.
Arguments Call {Request RequestContext TaskId Factory Repo Task A X} c k.
Arguments Called {Request RequestContext TaskId Factory Repo Task X} c.
Arguments outcome : clear implicits.
Arguments Outcome {Request RequestContext TaskId Factory Repo Task W A}
world trace returned.
Arguments world {Request RequestContext TaskId Factory Repo Task W A} o.
Arguments trace {Request RequestContext TaskId Factory Repo Task W A} o.
Arguments returned {Request RequestContext TaskId Factory Repo Task W A} o.
Arguments reads {Request RequestContext TaskId Factory Repo Task} ev.
Arguments saves {Request RequestContext TaskId Factory Repo Task} ev.
Arguments event : clear implicits.
Arguments gateway : clear implicits.

End TasksController.

(** ** ResponseSerializer *)

Module ResponseSerializer.
Section Serializer.

(** Timestamps and [timeutils.isotime], the [filter] method of the
    schema object the serializer was built with, and [json.dumps] are
    defined outside this file. *)
Context {datetime : Type}.
Variable isotime : datetime -> string.
Variable schema_filter : dict -> dict.
Variable dumps : dict -> string.

(** The attributes of a domain task the serializer reads. *)
Record Task : Type := {
  type : json;
  status : json;
  owner : json;
  message : json;
  task_id : json;
  created_at : datetime;
  updated_at : datetime;
}.

Definition getattr (task : Task) (key : string) : result json :=
  if String.eqb key "type" then Return (type task)
  else if String.eqb key "status" then Return (status task)
  else if String.eqb key "owner" then Return (owner task)
  else if String.eqb key "message" then Return (message task)
  else if String.eqb key "task_id" then Return (task_id task)
  else Raise AttributeError.

Definition attributes : list string := ["type"; "status"; "owner"; "message"].

(** The [for key in attributes] loop. *)
Fixpoint copy_attributes (keys : list string) (task : Task) (task_view : dict)
    : result dict :=
  match keys with
  | [] => Return task_view
  | key :: rest =>
      v ← getattr task key;
      copy_attributes rest task (<[key := v]> task_view)
  end.

Definition _format_task (task : Task) : result dict :=
  task_view ← copy_attributes attributes task ∅;
  let task_view := <["id" := task_id task]> task_view in
  let task_view := <["created_at" := JStr (isotime (created_at task))]> task_view in
  let task_view := <["updated_at" := JStr (isotime (updated_at task))]> task_view in
  let task_view := <["schema" := JStr "/v2/schemas/task"]> task_view in
  Return (schema_filter task_view).

(** The response object both methods write into. *)
Record Response : Type := {
  status_int : Z;
  unicode_body : string;
  content_type : string;
}.

Definition get (response : Response) (task : Task) : Response * result unit :=
  match _format_task task with
  | Raise e => (response, Raise e)
  | Return task_view =>
      let body := dumps task_view in
      ({| status_int := status_int response;
          unicode_body := body;
          content_type := "application/json" |}, Return tt)
  end.

Definition create (response : Response) (task : Task) : Response * result unit :=
  get {| status_int := 201;
         unicode_body := unicode_body response;
         content_type := content_type response |} task.

End Serializer.

Arguments Task : clear implicits.

End ResponseSerializer.

(** ** The task schema *)

Definition uuid_pattern : string :=
  "^([0-9a-fA-F]){8}-([0-9a-fA-F]){4}-([0-9a-fA-F]){4}" +:+
  "-([0-9a-fA-F]){4}-([0-9a-fA-F]){12}$".

Definition _TASK_SCHEMA : list (string * dict) :=
  [ ("id",
     {[ "description" := JStr "An identifier for the task";
        "pattern" := JStr uuid_pattern;
        "type" := JStr "string" ]});
    ("owner",
     {[ "description" := JStr "An identifier for the owner of this task";
        "type" := JStr "string" ]});
    ("type",
     {[ "description" := JStr "The type of task represented by this content";
        "enum" := JArr [JStr "import"; JStr "export"; JStr "clone"];
        "type" := JStr "string" ]});
    ("status",
     {[ "description" := JStr "The current status of this task.";
        "enum" := JArr [JStr "queued"; JStr "processing"; JStr "success";
                        JStr "failure"];
        "type" := JStr "string" ]});
    ("expires_at",
     {[ "description" :=
          JStr "Datetime when this resource is subject to removal";
        "type" := JStr "string";
        "required" := JBool false ]});
    ("message",
     {[ "description" :=
          JStr ("Human-readable informative message only included ' " +:+
                "       ' when appropriate (usually on failure)");
        "type" := JStr "string";
        "required" := JBool false ]}) ].

(** The names a schema built by [get_schema] declares. *)
Definition schema_properties : list string := _TASK_SCHEMA.*1.

(** [value is None]. *)
Definition is_None (v : json) : bool :=
  match v with
  | JNull => true
  | _ => false
  end.

(** Modelled from the spec: the JSON schema filtering of a view, the
    [filter] method of [glance.schema.Schema], which is not part of this
    file. A member of the view is kept when the schema declares a
    property of its name and its value is not [None]; every other
    member is dropped. *)
Definition filter_declared (properties : list string) (view : dict) : dict :=
  filter (fun kv => kv.1 ∈ properties /\ is_None kv.2 = false) view.

(** ** The create action end to end *)

Section Resource.

Context {Request RequestContext TaskId Factory Repo Task : Type}.
Variable default : Request -> result dict.
Variable gettext : string -> string.
Variable context : Request -> RequestContext.
Variable mutating_refusal : Request -> option exn.

(** Modelled from the spec: the transport layer that [create_resource]
    wires the three objects into ([wsgi.Resource], not part of this
    file). Client input is parsed and checked before construction: the
    deserializer runs first, and the keyword arguments it returns are
    those of the controller method. *)
Definition create_action (request : Request)
    : TasksController.prog Request RequestContext TaskId Factory Repo Task Task :=
  match RequestDeserializer.create default gettext request with
  | Raise e => TasksController.Throw e
  | Return kwargs =>
      match kwargs !! "task" with
      | Some task =>
          TasksController.create (TaskId := TaskId) context mutating_refusal
            request task
      | None => TasksController.Throw TypeError
      end
  end.

End Resource.

(** ** An in-memory domain layer *)

Module Mem.

(** Modelled from the spec: the domain layer behind the gateway (task
    entity, factory, repository and policy; [glance.gateway] and
    [glance.domain] are not part of this file). A task is created
    [queued] with an empty message and the acting principal as owner,
    whatever [status] the input carries; [run()] moves [queued] to
    [processing], cancellation moves a task that is not terminal to
    [failure] with the message "task cancelled"; the repository holds
    the tasks it was given and shares them with its callers. The policy
    answers each action with allow or [Forbidden]; every call of the
    layer consults it first, under the action names [create], [add],
    [get], [list], [save], [run] and [cancel]. *)

Inductive status : Type := queued | processing | success | failure.

(** A task object; [in_repository] tells whether the repository holds it. *)
Record task : Type := Task {
  task_type : json;
  task_status : status;
  task_owner : string;
  task_message : string;
  in_repository : bool;
}.

(** The task objects by handle, the next free handle, and the policy:
    the actions it refuses, each with the reason it gives. *)
Record world : Type := World {
  objects : gmap nat task;
  next : nat;
  refusals : gmap string string;
}.

Record request : Type := Request {
  principal : string;
  read_only : bool;
  parsed : result dict;
}.

Definition with_objects (w : world) (o : gmap nat task) : world :=
  World o (next w) (refusals w).

Definition check (action : string) (w : world) : result unit :=
  match refusals w !! action with
  | Some reason => Raise (Forbidden reason)
  | None => Return tt
  end.

Definition guarded {A : Type} (action : string) (w : world)
    (body : world * result A) : world * result A :=
  match check action w with
  | Raise e => (w, Raise e)
  | Return _ => body
  end.

Definition valid_type (v : json) : bool :=
  match v with
  | JStr s => String.eqb s "import" || String.eqb s "export" || String.eqb s "clone"
  | _ => false
  end.

Definition invalid_transition {A : Type} : result A :=
  Raise (OtherError "InvalidStateTransition" "").

Definition factory_new_task (req : request) (d : dict) (w : world)
    : world * result nat :=
  guarded "create" w
    match d !! "type" with
    | Some ty =>
        if valid_type ty
        then (World (<[next w := Task ty queued (principal req) "" false]> (objects w))
                    (S (next w)) (refusals w),
              Return (next w))
        else (w, Raise (OtherError "ValidationError" "type"))
    | None => (w, Raise (OtherError "ValidationError" "type"))
    end.

Definition repository_add (t : nat) (w : world) : world * result unit :=
  guarded "add" w
    match objects w !! t with
    | Some o =>
        if in_repository o
        then (w, Raise (OtherError "Conflict" ""))
        else (with_objects w
                (<[t := Task (task_type o) (task_status o) (task_owner o)
                          (task_message o) true]> (objects w)),
              Return tt)
    | None => (w, Raise (NotFound ""))
    end.

Definition repository_get (t : nat) (w : world) : world * result nat :=
  guarded "get" w
    match objects w !! t with
    | Some o => if in_repository o then (w, Return t) else (w, Raise (NotFound ""))
    | None => (w, Raise (NotFound ""))
    end.

Definition repository_save (t : nat) (w : world) : world * result unit :=
  guarded "save" w
    match objects w !! t with
    | Some o => if in_repository o then (w, Return tt) else (w, Raise (NotFound ""))
    | None => (w, Raise (NotFound ""))
    end.

Definition is_stored (w : world) (t : nat) : bool :=
  match objects w !! t with
  | Some o => in_repository o
  | None => false
  end.

Definition repository_list (w : world) : world * result (list nat) :=
  guarded "list" w (w, Return (List.filter (is_stored w) (rev (seq 0 (next w))))).

Definition transition (t : nat) (w : world) (step : task -> option task)
    : world * result unit :=
  match objects w !! t with
  | Some o =>
      match step o with
      | Some o' => (with_objects w (<[t := o']> (objects w)), Return tt)
      | None => (w, invalid_transition)
      end
  | None => (w, Raise (NotFound ""))
  end.

Definition run_step (o : task) : option task :=
  match task_status o with
  | queued => Some (Task (task_type o) processing (task_owner o) "" (in_repository o))
  | _ => None
  end.

Definition cancel_step (o : task) : option task :=
  match task_status o with
  | queued | processing =>
      Some (Task (task_type o) failure (task_owner o) "task cancelled" (in_repository o))
  | _ => None
  end.

Definition task_run (t : nat) (w : world) : world * result unit :=
  guarded "run" w (transition t w run_step).

Definition task_cancel (t : nat) (w : world) : world * result unit :=
  guarded "cancel" w (transition t w cancel_step).

Definition gateway : TasksController.gateway request string nat unit unit nat world :=
  fun X c =>
    match c in TasksController.call _ _ _ _ _ _ X return world -> world * result X with
    | TasksController.get_task_factory _ => fun w => (w, Return tt)
    | TasksController.get_task_repo _ => fun w => (w, Return tt)
    | TasksController.new_task _ req d => factory_new_task req d
    | TasksController.repo_add _ t => repository_add t
    | TasksController.repo_list _ => repository_list
    | TasksController.repo_get _ task_id => repository_get task_id
    | TasksController.repo_save _ t => repository_save t
    | TasksController.task_run t => task_run t
    | TasksController.task_remove t => task_cancel t
    end.

(** The guard of [utils.mutating], which is not part of this file: a
    request whose context is read-only is refused with webob's
    [HTTPForbidden]. The text "Read-only access" goes into the detail of
    that error; its explanation stays webob's own. *)
Definition refuse_read_only (req : request) : option exn :=
  if read_only req
  then Some (HTTPForbidden "Access was denied to this resource.")
  else None.

Definition empty (policy : gmap string string) : world := World ∅ 0 policy.

End Mem.

(** ** Statements about single requests

    The properties the specification words for every request, as
    predicates of one request, and the concrete requests, tasks and
    worlds they are tried on. *)

(** [body] is a JSON object that has the member [k]. *)
Definition has_key (body : json) (k : string) : Prop :=
  match body with
  | JObj d => is_Some (d !! k)
  | _ => False
  end.

(** The JSON values Python cannot iterate over: [None], booleans and
    numbers. *)
Definition not_iterable (v : json) : bool :=
  match v with
  | JNull | JBool _ | JInt _ | JFloat _ => true
  | JStr _ | JArr _ | JObj _ => false
  end.

(** [needle] occurs somewhere in [haystack]. *)
Definition occurs_in (needle haystack : string) : Prop :=
  exists before after, haystack = before +:+ needle +:+ after.

Module Examples.

(** Requests that are already decoded: [default] returns them as they
    are, and no message catalogue is installed. *)
Definition decoded (output : dict) : result dict := Return output.
Definition untranslated (msgid : string) : string := msgid.

Definition deserialize (output : dict) : result (gmap string dict) :=
  RequestDeserializer.create decoded untranslated output.

Definition no_body : dict := ∅.

Definition body_with_status : dict :=
  {[ "body" := JObj {[ "type" := JStr "import"; "status" := JStr "success" ]} ]}.

Definition body_with_direct_url : dict :=
  {[ "body" := JObj {[ "type" := JStr "import";
                       "direct_url" := JStr "file:///etc/passwd" ]} ]}.

Definition body_with_extra_key : dict :=
  {[ "body" := JObj {[ "type" := JStr "import"; "owner" := JStr "alice";
                       "colour" := JStr "red" ]} ]}.

Definition body_is_list : dict := {[ "body" := JArr [] ]}.

Definition body_with_schema_and_self : dict :=
  {[ "body" := JObj {[ "schema" := JStr "/v2/schemas/image"; "self" := JStr "/v2/tasks/1";
                       "type" := JStr "import" ]} ]}.

Definition body_is_number : dict := {[ "body" := JInt 42 ]}.

Definition body_is_list_of_names : dict :=
  {[ "body" := JArr [JStr "type"; JStr "file"] ]}.

Definition body_is_list_of_types : dict :=
  {[ "body" := JArr [JStr "import"; JInt 1] ]}.

Definition body_is_string : dict := {[ "body" := JStr "do it yourself" ]}.

Definition body_is_plain_string : dict := {[ "body" := JStr "import" ]}.

Definition body_with_other_extra_key : dict :=
  {[ "body" := JObj {[ "type" := JStr "import"; "owner" := JStr "alice";
                       "size" := JInt 3 ]} ]}.

(** The client's [status] is rejected (the request fails) or ignored
    (the task dict handed onward has no [status] other than [queued]). *)
Definition client_status_ignored_or_rejected (output : dict) : Prop :=
  match deserialize output with
  | Raise _ => True
  | Return kwargs =>
      forall task, kwargs !! "task" = Some task ->
        task !! "status" = None \/ task !! "status" = Some (JStr "queued")
  end.

(** [create] raises exactly when the body has a disallowed key. *)
Definition raises_iff_disallowed (output : dict) (body : json) : Prop :=
  (exists e, deserialize output = Raise e) <->
  (exists k, k ∈ RequestDeserializer._disallowed_properties /\ has_key body k).

(** The controller over the in-memory domain layer. *)
Definition alice : Mem.request := Mem.Request "alice" false (Return body_with_status).

Definition bob : Mem.request := Mem.Request "bob" false (Return body_with_direct_url).

Definition carol : Mem.request := Mem.Request "carol" false (Return no_body).

Definition import_task : dict := {[ "type" := JStr "import" ]}.

Definition create_in (w : Mem.world)
    : TasksController.outcome Mem.request string nat unit unit nat Mem.world nat :=
  TasksController.run Mem.gateway
    (TasksController.create Mem.principal Mem.refuse_read_only alice import_task) w.

Definition kill_in (task_id : nat) (w : Mem.world)
    : TasksController.outcome Mem.request string nat unit unit nat Mem.world nat :=
  TasksController.run Mem.gateway
    (TasksController.kill Mem.principal alice task_id) w.

(** A policy that refuses [run], and one that refuses [create], each
    for the reason given. *)
Definition run_refused (reason : string) : Mem.world :=
  Mem.empty {[ "run" := reason ]}.
Definition create_refused (reason : string) : Mem.world :=
  Mem.empty {[ "create" := reason ]}.


(** The world after a successful create under a policy that refuses
    nothing: task 0 is stored and running. *)
Definition one_running : Mem.world :=
  Mem.World {[ 0 := Mem.Task (JStr "import") Mem.processing "alice" "" true ]} 1 ∅.

(** A gateway that hands out no task factory. *)
Definition closed_gateway
    : TasksController.gateway Mem.request string nat unit unit nat Mem.world :=
  fun X c =>
    match c in TasksController.call _ _ _ _ _ _ X0
          return Mem.world -> Mem.world * result X0 with
    | TasksController.get_task_factory _ =>
        fun w => (w, Raise (Forbidden "no task factory for alice"))
    | c0 => Mem.gateway _ c0
    end.

Definition bogus_task : dict := {[ "type" := JStr "bogus" ]}.

(** Task 0 is stored and has succeeded. *)
Definition one_finished : Mem.world :=
  Mem.World {[ 0 := Mem.Task (JStr "import") Mem.success "alice" "" true ]} 1 ∅.

Definition persisted_with_run_applied (w : Mem.world) (t : nat) : Prop :=
  exists o, Mem.objects w !! t = Some o /\
            Mem.in_repository o = true /\
            Mem.task_status o = Mem.processing.

(** After a create that failed with a Forbidden error every task that
    was not stored before is either still not stored or stored with
    [run()] applied. *)
Definition no_partial_state (before : Mem.world) : Prop :=
  forall text, TasksController.returned (create_in before) = Raise (HTTPForbidden text) ->
  forall t, Mem.is_stored before t = false ->
    Mem.is_stored (TasksController.world (create_in before)) t = false \/
    persisted_with_run_applied (TasksController.world (create_in before)) t.

(** What the caller sees of a refused create does not depend on the
    reason the policy gave. *)
Definition denial_carries_no_detail : Prop :=
  forall reason1 reason2,
    TasksController.returned (create_in (create_refused reason1)) =
    TasksController.returned (create_in (create_refused reason2)).

(** A task as the serializer reads it, with timestamps that are already
    rendered. *)
Definition sample_task : ResponseSerializer.Task string :=
  {| ResponseSerializer.type := JStr "import";
     ResponseSerializer.status := JStr "processing";
     ResponseSerializer.owner := JStr "alice";
     ResponseSerializer.message := JNull;
     ResponseSerializer.task_id := JStr "c80a1a6c-bd1f-41c5-90ee-81afedb1d58d";
     ResponseSerializer.created_at := "2013-06-12T09:00:00Z";
     ResponseSerializer.updated_at := "2013-06-12T09:00:05Z" |}.

Definition rendered (at_ : string) : string := at_.

Definition view_fields : list string :=
  ["id"; "type"; "status"; "owner"; "message"; "created_at"; "updated_at"].

(** The view has every field of the contract and, beyond them, at most
    the schema link. *)
Definition has_exact_fields (view : dict) : Prop :=
  (forall k, k ∈ view_fields -> is_Some (view !! k)) /\
  (forall k, is_Some (view !! k) -> k ∈ "schema" :: view_fields).

Definition serialized_fields_exact (schema_filter : dict -> dict)
    (task : ResponseSerializer.Task string) : Prop :=
  exists view,
    ResponseSerializer._format_task rendered schema_filter task = Return view /\
    has_exact_fields view.

End Examples.

(** * Properties *)

(** ** The deserializer *)

Section DeserializerProperties.

Import RequestDeserializer.

Context {Request : Type}.
Variable default : Request -> result dict.
Variable gettext : string -> string.

Local Abbreviation _get_request_body := (_get_request_body default gettext).
Local Abbreviation create_state := (create_state default gettext).
Local Abbreviation create := (create default gettext).

Lemma check_keys_clean keys d :
  (forall k, k ∈ keys -> d !! k = None) ->
  check_keys keys (JObj d) = Return tt.
Proof.
  induction keys as [|key rest IH]; intros Hclean; [reflexivity|].
  cbn. rewrite (Hclean key) by left.
  rewrite bool_decide_eq_false_2 by (intros [? ?]; discriminate).
  cbn. apply IH. intros k Hk. apply Hclean. by right.
Qed.

Lemma check_keys_first keys d k :
  k ∈ keys -> is_Some (d !! k) ->
  exists before k' after,
    keys = (before ++ k' :: after)%list /\
    (forall j, j ∈ before -> d !! j = None) /\
    is_Some (d !! k') /\
    check_keys keys (JObj d) = Raise (HTTPForbidden (read_only_message k')).
Proof.
  induction keys as [|key rest IH]; intros Hin Hk.
  - by apply elem_of_nil in Hin.
  - destruct (d !! key) as [v|] eqn:Hkey.
    + exists [], key, rest. split; [reflexivity|]. split.
      { intros j Hj. by apply elem_of_nil in Hj. }
      split; [by rewrite Hkey|].
      cbn. rewrite Hkey. by rewrite bool_decide_eq_true_2.
    + assert (k ∈ rest) as Hrest.
      { apply elem_of_cons in Hin as [->|?]; [|done].
        rewrite Hkey in Hk. by destruct Hk. }
      destruct (IH Hrest Hk) as (before & k' & after & -> & Hb & Hk' & Hc).
      exists (key :: before), k', after. split; [reflexivity|]. split.
      { intros j Hj. apply elem_of_cons in Hj as [->|?]; auto. }
      split; [done|].
      cbn. rewrite Hkey.
      rewrite bool_decide_eq_false_2 by (intros [? ?]; discriminate).
      exact Hc.
Qed.

(** The pop loop on a JSON object: every listed key the object has
    moves from the object to the task dict, nothing else moves. *)
Lemma pop_all_obj keys : forall (task d : dict),
  exists task' d',
    pop_all keys (task, JObj d) = Return (task', JObj d') /\
    (forall k, task' !! k =
       if decide (k ∈ keys)
       then match d !! k with Some v => Some v | None => task !! k end
       else task !! k) /\
    (forall k, d' !! k = if decide (k ∈ keys) then None else d !! k).
Proof.
  induction keys as [|key rest IH]; intros task d.
  - exists task, d. split; [reflexivity|].
    split; intros k; rewrite decide_False; auto using not_elem_of_nil.
  - cbn. unfold pop_into. cbn. destruct (d !! key) as [v|] eqn:Hkey.
    + destruct (IH (<[key := v]> task) (delete key d))
        as (task' & d' & Hrun & Htask & Hd).
      exists task', d'. split; [exact Hrun|]. split; intros k.
      * rewrite Htask. destruct (decide (k = key)) as [->|Hne].
        -- rewrite lookup_delete_eq, lookup_insert_eq, Hkey.
           rewrite (decide_True (P := key ∈ key :: rest)) by left.
           by destruct (decide (key ∈ rest)).
        -- rewrite lookup_delete_ne, lookup_insert_ne by done.
           destruct (decide (k ∈ rest)) as [Hin|Hnin].
           ++ rewrite decide_True by (by right). done.
           ++ rewrite decide_False; [done|].
              intros [?|?]%elem_of_cons; done.
      * rewrite Hd. destruct (decide (k = key)) as [->|Hne].
        -- rewrite lookup_delete_eq.
           rewrite (decide_True (P := key ∈ key :: rest)) by left.
           by destruct (decide (key ∈ rest)).
        -- rewrite lookup_delete_ne by done.
           destruct (decide (k ∈ rest)) as [Hin|Hnin].
           ++ rewrite decide_True by (by right). done.
           ++ rewrite decide_False; [done|].
              intros [?|?]%elem_of_cons; done.
    + destruct (IH task d) as (task' & d' & Hrun & Htask & Hd).
      exists task', d'. split; [exact Hrun|]. split; intros k.
      * rewrite Htask. destruct (decide (k = key)) as [->|Hne].
        -- rewrite Hkey.
           rewrite (decide_True (P := key ∈ key :: rest)) by left.
           by destruct (decide (key ∈ rest)).
        -- destruct (decide (k ∈ rest)) as [Hin|Hnin].
           ++ rewrite decide_True by (by right). done.
           ++ rewrite decide_False; [done|].
              intros [?|?]%elem_of_cons; done.
      * rewrite Hd. destruct (decide (k = key)) as [->|Hne].
        -- rewrite (decide_True (P := key ∈ key :: rest)) by left.
           destruct (decide (key ∈ rest)); done.
        -- destruct (decide (k ∈ rest)) as [Hin|Hnin].
           ++ rewrite decide_True by (by right). done.
           ++ rewrite decide_False; [done|].
              intros [?|?]%elem_of_cons; done.
Qed.

Lemma check_keys_returns_inv keys d :
  check_keys keys (JObj d) = Return tt ->
  forall k, k ∈ keys -> d !! k = None.
Proof.
  intros Hret k Hk. destruct (d !! k) as [v|] eqn:Hv; [|reflexivity].
  destruct (check_keys_first keys d k Hk) as (? & ? & ? & _ & _ & _ & Hc).
  - by rewrite Hv.
  - rewrite Hc in Hret. discriminate.
Qed.

(** On a JSON object without disallowed keys [create] returns, and the
    task dict is the object restricted to the base properties. *)
Lemma create_clean request output d :
  default request = Return output ->
  output !! "body" = Some (JObj d) ->
  (forall k, k ∈ _disallowed_properties -> d !! k = None) ->
  exists task rest,
    create_state request = Return (task, JObj rest) /\
    create request = Return {[ "task" := task ]} /\
    (forall k, task !! k = if decide (k ∈ _base_properties) then d !! k else None) /\
    (forall k, rest !! k = if decide (k ∈ _base_properties) then None else d !! k).
Proof.
  intros Hdef Hbody Hclean.
  destruct (pop_all_obj _base_properties ∅ d) as (task & rest & Hpop & Htask & Hrest).
  exists task, rest.
  assert (create_state request = Return (task, JObj rest)) as Hstate.
  { unfold RequestDeserializer.create_state, RequestDeserializer._get_request_body.
    rewrite Hdef. cbn [mbind result_bind]. rewrite Hbody.
    cbn [mbind result_bind]. unfold _check_allowed. rewrite check_keys_clean by exact Hclean.
    exact Hpop. }
  split; [exact Hstate|]. split.
  - unfold RequestDeserializer.create. rewrite Hstate. reflexivity.
  - split; [|exact Hrest]. intros k. rewrite Htask, lookup_empty.
    destruct (decide (k ∈ _base_properties)); [|reflexivity].
    by destruct (d !! k).
Qed.

(** A body that is not a JSON object never gets through [create]. *)
Lemma create_state_returns_inv request st :
  create_state request = Return st ->
  exists d,
    _get_request_body request = Return (JObj d) /\
    (forall k, k ∈ _disallowed_properties -> d !! k = None).
Proof.
  unfold RequestDeserializer.create_state.
  destruct (_get_request_body request) as [body|e]; [|discriminate].
  cbn [mbind result_bind].
  destruct (_check_allowed body) as [[]|e] eqn:Hcheck; cbn [mbind result_bind];
    [|discriminate].
  destruct body as [| | | | |l|d]; try (cbn; discriminate).
  intros _. exists d. split; [reflexivity|].
  by apply check_keys_returns_inv.
Qed.

Lemma get_request_body_returns_inv request body :
  _get_request_body request = Return body ->
  exists output, default request = Return output /\ output !! "body" = Some body.
Proof.
  unfold RequestDeserializer._get_request_body.
  destruct (default request) as [output|e]; [|discriminate].
  cbn. destruct (output !! "body") as [b|] eqn:Hb; [|discriminate].
  intros [= ->]. by exists output.
Qed.

(** C1 (as amended): when the body is a JSON object with a [status]
    member and no disallowed key, [create] returns, and the task dict
    handed to the controller carries the client's value under [status],
    unchanged; the dict has no [id] member. *)
Theorem create_forwards_client_status request output d v :
  default request = Return output ->
  output !! "body" = Some (JObj d) ->
  d !! "status" = Some v ->
  (forall k, k ∈ _disallowed_properties -> d !! k = None) ->
  exists task,
    create request = Return {[ "task" := task ]} /\
    task !! "status" = Some v /\
    task !! "id" = None.
Proof.
  intros Hdef Hbody Hstatus Hclean.
  destruct (create_clean request output d Hdef Hbody Hclean)
    as (task & rest & _ & Hcreate & Htask & _).
  exists task. split; [exact Hcreate|]. split.
  - rewrite Htask. rewrite decide_True; [exact Hstatus|].
    unfold _base_properties. set_solver.
  - rewrite Htask. rewrite decide_False; [reflexivity|].
    unfold _base_properties. intros Hin.
    repeat (apply elem_of_cons in Hin as [Hin|Hin]; [discriminate|]).
    by apply elem_of_nil in Hin.
Qed.

(** What a returning [create] tells about the request. *)
Lemma create_returns_inv request kwargs :
  create request = Return kwargs ->
  exists d task,
    _get_request_body request = Return (JObj d) /\
    (forall k, k ∈ _disallowed_properties -> d !! k = None) /\
    kwargs = {[ "task" := task ]} /\
    (forall k, task !! k = if decide (k ∈ _base_properties) then d !! k else None).
Proof.
  unfold RequestDeserializer.create.
  destruct (create_state request) as [st|e] eqn:Hstate; [|discriminate].
  cbn. intros [= <-].
  destruct (create_state_returns_inv request st Hstate) as (d & Hget & Hclean).
  destruct (get_request_body_returns_inv request _ Hget) as (output & Hdef & Hbody).
  destruct (create_clean request output d Hdef Hbody Hclean)
    as (task & rest & Hstate' & _ & Htask & _).
  rewrite Hstate in Hstate'. injection Hstate' as ->.
  by exists d, task.
Qed.

(** C6: whenever [create] hands a mapping onward, the body was a JSON
    object and the task dict in the keyword arguments is that object
    restricted to [type], [status] and [owner]: those members are
    forwarded with the client's values, every other member of the body
    is left behind. *)
Theorem create_forwards_base_only request kwargs :
  create request = Return kwargs ->
  exists d task,
    _get_request_body request = Return (JObj d) /\
    kwargs = {[ "task" := task ]} /\
    (forall k, is_Some (task !! k) -> k ∈ ["type"; "status"; "owner"]) /\
    (forall k, k ∈ ["type"; "status"; "owner"] -> task !! k = d !! k) /\
    (forall k, k ∉ ["type"; "status"; "owner"] -> task !! k = None).
Proof.
  intros Hcreate.
  destruct (create_returns_inv request kwargs Hcreate)
    as (d & task & Hget & _ & -> & Htask).
  exists d, task. split; [exact Hget|]. split; [reflexivity|].
  change ["type"; "status"; "owner"] with _base_properties.
  split; [|split]; intros k.
  - rewrite Htask. destruct (decide (k ∈ _base_properties)); [done|].
    intros [? ?]; discriminate.
  - intros Hk. rewrite Htask. by rewrite decide_True.
  - intros Hk. rewrite Htask. by rewrite decide_False.
Qed.

(** C9 (as amended): when the body is a JSON object, [create] raises if
    and only if the object has one of the four disallowed keys;
    otherwise it returns the object restricted to the base properties,
    so an unknown key is dropped without an error and a missing [type],
    [status] or [owner] is simply not in the output. *)
Theorem create_raises_iff_disallowed request output d :
  default request = Return output ->
  output !! "body" = Some (JObj d) ->
  ((exists e, create request = Raise e) <->
   (exists k, k ∈ ["direct_url"; "self"; "file"; "schema"] /\ is_Some (d !! k))) /\
  ((forall k, k ∈ ["direct_url"; "self"; "file"; "schema"] -> d !! k = None) ->
   exists task,
     create request = Return {[ "task" := task ]} /\
     (forall k, task !! k =
        if decide (k ∈ ["type"; "status"; "owner"]) then d !! k else None)).
Proof.
  intros Hdef Hbody.
  change ["direct_url"; "self"; "file"; "schema"] with _disallowed_properties.
  change ["type"; "status"; "owner"] with _base_properties.
  split; [split|].
  - intros [e He].
    destruct (decide (Forall (fun k => d !! k = None) _disallowed_properties))
      as [Hall|Hex].
    + rewrite Forall_forall in Hall.
      destruct (create_clean request output d Hdef Hbody Hall)
        as (? & ? & _ & Hc & _).
      rewrite Hc in He. discriminate.
    + apply not_Forall_Exists in Hex; [|solve_decision].
      apply Exists_exists in Hex as (k & Hk & Hsome).
      exists k. split; [exact Hk|].
      unfold compose in Hsome.
      destruct (d !! k); [by eexists|by destruct Hsome].
  - intros (k & Hk & Hsome).
    destruct (check_keys_first _ d k Hk Hsome) as (? & k' & ? & _ & _ & _ & Hc).
    exists (HTTPForbidden (read_only_message k')).
    unfold RequestDeserializer.create, RequestDeserializer.create_state,
      RequestDeserializer._get_request_body.
    rewrite Hdef. cbn [mbind result_bind]. rewrite Hbody.
    cbn [mbind result_bind]. unfold _check_allowed. rewrite Hc. reflexivity.
  - intros Hclean.
    destruct (create_clean request output d Hdef Hbody Hclean)
      as (task & rest & _ & Hc & Htask & _).
    by exists task.
Qed.

End DeserializerProperties.

(** *** The deserializer on concrete requests *)

Lemma deserialize_body_with_status :
  Examples.deserialize Examples.body_with_status =
  Return {[ "task" := {[ "type" := JStr "import"; "status" := JStr "success" ]} ]}.
Proof. vm_compute. reflexivity. Qed.

Lemma deserialize_body_with_extra_key :
  Examples.deserialize Examples.body_with_extra_key =
  Return {[ "task" := {[ "type" := JStr "import"; "owner" := JStr "alice" ]} ]}.
Proof. vm_compute. reflexivity. Qed.

Lemma deserialize_body_with_direct_url :
  Examples.deserialize Examples.body_with_direct_url =
  Raise (HTTPForbidden "Attribute 'direct_url' is read-only.").
Proof. vm_compute. reflexivity. Qed.

Lemma deserialize_body_is_list :
  Examples.deserialize Examples.body_is_list = Raise TypeError.
Proof. vm_compute. reflexivity. Qed.

Lemma create_forwards_client_status_witness :
  exists task,
    Examples.deserialize Examples.body_with_status = Return {[ "task" := task ]} /\
    task !! "status" = Some (JStr "success") /\
    task !! "id" = None.
Proof.
  refine (create_forwards_client_status Examples.decoded Examples.untranslated
            Examples.body_with_status Examples.body_with_status
            {[ "type" := JStr "import"; "status" := JStr "success" ]}
            (JStr "success") _ _ _ _);
    [reflexivity | reflexivity | reflexivity | apply Forall_forall; repeat constructor].
Defined.

(** C1 (as stated) fails: a body with [status] set to [success] is not
    rejected, and the task dict handed onward starts at [success]. *)
Lemma client_status_forwarded_counterexample :
  ~ Examples.client_status_ignored_or_rejected Examples.body_with_status.
Proof.
  unfold Examples.client_status_ignored_or_rejected.
  rewrite deserialize_body_with_status. intros H.
  destruct (H {[ "type" := JStr "import"; "status" := JStr "success" ]})
    as [Hnone|Hqueued]; [reflexivity| |].
  - vm_compute in Hnone. discriminate.
  - vm_compute in Hqueued. discriminate.
Qed.

Lemma create_forwards_base_only_witness :
  exists d task,
    RequestDeserializer._get_request_body Examples.decoded Examples.untranslated
      Examples.body_with_extra_key = Return (JObj d) /\
    ({[ "task" := {[ "type" := JStr "import"; "owner" := JStr "alice" ]} ]}
       : gmap string dict) = {[ "task" := task ]} /\
    (forall k, is_Some (task !! k) -> k ∈ ["type"; "status"; "owner"]) /\
    (forall k, k ∈ ["type"; "status"; "owner"] -> task !! k = d !! k) /\
    (forall k, k ∉ ["type"; "status"; "owner"] -> task !! k = None).
Proof.
  refine (create_forwards_base_only Examples.decoded Examples.untranslated
            Examples.body_with_extra_key _ _).
  vm_compute. reflexivity.
Defined.

Lemma create_raises_iff_disallowed_witness :
  exists task,
    Examples.deserialize Examples.body_with_extra_key = Return {[ "task" := task ]} /\
    (forall k, task !! k =
       if decide (k ∈ ["type"; "status"; "owner"])
       then ({[ "type" := JStr "import"; "owner" := JStr "alice";
                "colour" := JStr "red" ]} : dict) !! k
       else None).
Proof.
  refine (proj2 (create_raises_iff_disallowed Examples.decoded Examples.untranslated
                   Examples.body_with_extra_key Examples.body_with_extra_key
                   _ _ _) _); [reflexivity | reflexivity | ].
  apply Forall_forall. repeat constructor.
Defined.

(** C9 (as stated) fails: the body [[]] has none of the disallowed keys,
    and [create] raises all the same, a [TypeError] from [pop]. *)
Lemma list_body_raises_counterexample :
  ~ Examples.raises_iff_disallowed Examples.body_is_list (JArr []).
Proof.
  intros [Hraise _].
  destruct Hraise as (k & _ & Hk).
  - exists TypeError. exact deserialize_body_is_list.
  - exact Hk.
Qed.

(** ** The controller *)

Section ControllerProperties.

Import TasksController.

Context {Request RequestContext TaskId Factory Repo Task W : Type}.
Variable context : Request -> RequestContext.
Variable mutating_refusal : Request -> option exn.
Variable g : gateway Request RequestContext TaskId Factory Repo Task W.

Local Abbreviation prog := (prog Request RequestContext TaskId Factory Repo Task).
Local Abbreviation create := (create (TaskId := TaskId) context mutating_refusal).
Local Abbreviation kill := (kill (Factory := Factory) context).

Lemma run_bind {A B : Type} (p : prog A) (f : A -> prog B) (w : W) :
  run g (p ≫= f) w = then_run g (run g p w) f.
Proof.
  revert w. induction p as [a|e|X c k IH]; intros w.
  - unfold then_run. cbn. by destruct (run g (f a) w).
  - reflexivity.
  - cbn. destruct (g X c w) as [w' r].
    change (prog_bind f (k r)) with (k r ≫= f). rewrite IH.
    unfold then_run. cbn. by destruct (returned (run g (k r) w')).
Qed.

Lemma run_try_except {A : Type} (p : prog A) (handler : exn -> prog A) (w : W) :
  run g (try_except p handler) w =
  match returned (run g p w) with
  | Return a => run g p w
  | Raise e =>
      let o' := run g (handler e) (world (run g p w)) in
      Outcome (world o') (trace (run g p w) ++ trace o') (returned o')
  end.
Proof.
  revert w. induction p as [a|e|X c k IH]; intros w.
  - reflexivity.
  - cbn. by destruct (run g (handler e) w).
  - cbn. destruct (g X c w) as [w' r]. rewrite IH.
    cbn. by destruct (returned (run g (k r) w')).
Qed.

Lemma run_invoke {X : Type} (c : call _ _ _ _ _ _ X) (w : W) :
  run g (invoke c) w = Outcome (g X c w).1 [Called c] (g X c w).2.
Proof. cbn. by destruct (g X c w) as [w' [x|e]]. Qed.

Local Ltac answer H := cbn; rewrite H; cbn.

(** C3 (as amended): past the guard and with the factory and the
    repository in hand, [create] calls [new_task], [add] and [run] in
    this order and stops at the first that raises. A [Forbidden] from
    any of the three reaches the caller as [HTTPForbidden] with the
    same text, and the world is left as the failing call left it:
    nothing is undone, so after a refused [run] the world is the one
    [add] produced, passed through the failed [run]. When all three
    return, the task the factory built is returned. *)
Theorem create_sequence_forbidden req task w w1 w2 f r :
  mutating_refusal req = None ->
  g _ (get_task_factory (context req)) w = (w1, Return f) ->
  g _ (get_task_repo (context req)) w1 = (w2, Return r) ->
  (forall w3 text,
     g _ (new_task f req task) w2 = (w3, Raise (Forbidden text)) ->
     run g (create req task) w =
     Outcome w3
       [Called (get_task_factory (context req));
        Called (get_task_repo (context req));
        Called (new_task f req task)]
       (Raise (HTTPForbidden text))) /\
  (forall w3 t w4 text,
     g _ (new_task f req task) w2 = (w3, Return t) ->
     g _ (repo_add r t) w3 = (w4, Raise (Forbidden text)) ->
     run g (create req task) w =
     Outcome w4
       [Called (get_task_factory (context req));
        Called (get_task_repo (context req));
        Called (new_task f req task);
        Called (repo_add r t)]
       (Raise (HTTPForbidden text))) /\
  (forall w3 t w4 w5 text,
     g _ (new_task f req task) w2 = (w3, Return t) ->
     g _ (repo_add r t) w3 = (w4, Return tt) ->
     g _ (task_run t) w4 = (w5, Raise (Forbidden text)) ->
     run g (create req task) w =
     Outcome w5
       [Called (get_task_factory (context req));
        Called (get_task_repo (context req));
        Called (new_task f req task);
        Called (repo_add r t);
        Called (task_run t)]
       (Raise (HTTPForbidden text))) /\
  (forall w3 t w4 w5,
     g _ (new_task f req task) w2 = (w3, Return t) ->
     g _ (repo_add r t) w3 = (w4, Return tt) ->
     g _ (task_run t) w4 = (w5, Return tt) ->
     run g (create req task) w =
     Outcome w5
       [Called (get_task_factory (context req));
        Called (get_task_repo (context req));
        Called (new_task f req task);
        Called (repo_add r t);
        Called (task_run t)]
       (Return t)).
Proof.
  intros Hguard Hf Hr.
  assert (forall o,
    run g (try_except (create_steps f r req task) forbidden_to_http) w2 = o ->
    run g (create req task) w =
    Outcome (world o)
      (Called (get_task_factory (context req)) ::
       Called (get_task_repo (context req)) :: trace o)
      (returned o)) as Hopen.
  { intros o <-. unfold TasksController.create, mutating. rewrite Hguard.
    answer Hf. answer Hr. reflexivity. }
  repeat split.
  - intros w3 text Hnew. apply (Hopen (Outcome _ _ _)). by answer Hnew.
  - intros w3 t w4 text Hnew Hadd. apply (Hopen (Outcome _ _ _)).
    answer Hnew. by answer Hadd.
  - intros w3 t w4 w5 text Hnew Hadd Hrun. apply (Hopen (Outcome _ _ _)).
    answer Hnew. answer Hadd. by answer Hrun.
  - intros w3 t w4 w5 Hnew Hadd Hrun. apply (Hopen (Outcome _ _ _)).
    answer Hnew. answer Hadd. by answer Hrun.
Qed.

(** C7 (as amended): past the guard, a [Forbidden] raised by one of the
    three statements of the [try] block ([new_task], [add], [run]), at
    whichever of them, reaches the caller as the client error
    [HTTPForbidden] (status 403) whose explanation is the text of that
    [Forbidden], word for word. A [Forbidden] raised while the gateway
    hands out the factory or the repository, before the [try], reaches
    the caller as that [Forbidden] itself. *)
Theorem create_forbidden_keeps_text req task w text :
  mutating_refusal req = None ->
  (forall w1,
     g _ (get_task_factory (context req)) w = (w1, Raise (Forbidden text)) ->
     returned (run g (create req task) w) = Raise (Forbidden text)) /\
  (forall w1 f w2,
     g _ (get_task_factory (context req)) w = (w1, Return f) ->
     g _ (get_task_repo (context req)) w1 = (w2, Raise (Forbidden text)) ->
     returned (run g (create req task) w) = Raise (Forbidden text)) /\
  (forall w1 f w2 r,
     g _ (get_task_factory (context req)) w = (w1, Return f) ->
     g _ (get_task_repo (context req)) w1 = (w2, Return r) ->
     returned (run g (create_steps f r req task) w2) = Raise (Forbidden text) ->
     returned (run g (create req task) w) = Raise (HTTPForbidden text) /\
     is_client_error (HTTPForbidden text) /\
     status_code (HTTPForbidden text) = Some 403%Z).
Proof.
  intros Hguard. split; [|split].
  - intros w1 Hf. unfold TasksController.create, mutating. rewrite Hguard.
    by answer Hf.
  - intros w1 f w2 Hf Hr. unfold TasksController.create, mutating. rewrite Hguard.
    answer Hf. by answer Hr.
  - intros w1 f w2 r Hf Hr Hsteps. split.
    + unfold TasksController.create, mutating. rewrite Hguard.
      rewrite run_bind, run_invoke, Hf. unfold then_run. cbn [returned world fst snd].
      rewrite run_bind, run_invoke, Hr. unfold then_run. cbn [returned world fst snd].
      rewrite run_try_except, Hsteps. reflexivity.
    + split; [|reflexivity]. exists 403%Z. split; [reflexivity|lia].
Qed.

(** C4: with the repository in hand, [kill] calls [get] with the
    identifier, then [remove()] on the task [get] returned, then [save]
    with that same task, and returns it; the repository is asked for no
    deletion. What [get] raises, [NotFound] included, reaches the
    caller as it is, and neither [remove()] nor [save] is called. *)
Theorem kill_sequence req task_id w w1 r :
  g _ (get_task_repo (context req)) w = (w1, Return r) ->
  (forall w2 t w3 w4,
     g _ (repo_get r task_id) w1 = (w2, Return t) ->
     g _ (task_remove t) w2 = (w3, Return tt) ->
     g _ (repo_save r t) w3 = (w4, Return tt) ->
     run g (kill req task_id) w =
     Outcome w4
       [Called (get_task_repo (context req));
        Called (repo_get r task_id);
        Called (task_remove t);
        Called (repo_save r t)]
       (Return t)) /\
  (forall w2 e,
     g _ (repo_get r task_id) w1 = (w2, Raise e) ->
     run g (kill req task_id) w =
     Outcome w2
       [Called (get_task_repo (context req));
        Called (repo_get r task_id)]
       (Raise e)) /\
  (forall w2 text,
     g _ (repo_get r task_id) w1 = (w2, Raise (NotFound text)) ->
     returned (run g (kill req task_id) w) = Raise (NotFound text)).
Proof.
  intros Hr. unfold TasksController.kill. repeat split.
  - intros w2 t w3 w4 Hget Hremove Hsave.
    answer Hr. answer Hget. answer Hremove. by answer Hsave.
  - intros w2 e Hget. answer Hr. by answer Hget.
  - intros w2 text Hget. answer Hr. by answer Hget.
Qed.

End ControllerProperties.

(** *** The controller over the in-memory domain layer *)

Lemma create_sequence_forbidden_witness :
  Examples.create_in (Examples.run_refused "run_task is not allowed") =
  TasksController.Outcome
    (Mem.World {[ 0 := Mem.Task (JStr "import") Mem.queued "alice" "" true ]} 1
               {[ "run" := "run_task is not allowed" ]})
    [TasksController.Called (TasksController.get_task_factory "alice");
     TasksController.Called (TasksController.get_task_repo "alice");
     TasksController.Called
       (TasksController.new_task tt Examples.alice Examples.import_task);
     TasksController.Called (TasksController.repo_add tt 0);
     TasksController.Called (TasksController.task_run 0)]
    (Raise (HTTPForbidden "run_task is not allowed")).
Proof.
  refine (proj1 (proj2 (proj2
    (create_sequence_forbidden Mem.principal Mem.refuse_read_only Mem.gateway
       Examples.alice Examples.import_task
       (Examples.run_refused "run_task is not allowed")
       (Examples.run_refused "run_task is not allowed")
       (Examples.run_refused "run_task is not allowed")
       tt tt _ _ _)))
    (Mem.World {[ 0 := Mem.Task (JStr "import") Mem.queued "alice" "" false ]} 1
               {[ "run" := "run_task is not allowed" ]})
    0 _ _ "run_task is not allowed" _ _ _); reflexivity.
Defined.

(** C3 (as stated) fails: when [run()] is refused the caller gets the
    Forbidden error while task 0, absent before, sits in the repository
    still [queued]. *)
Lemma create_leaves_added_task_counterexample :
  ~ Examples.no_partial_state (Examples.run_refused "run_task is not allowed").
Proof.
  intros H.
  destruct (H "run_task is not allowed" eq_refl 0 eq_refl)
    as [Habsent|(o & Hobj & _ & Hstatus)].
  - vm_compute in Habsent. discriminate.
  - assert (Mem.objects
              (TasksController.world
                 (Examples.create_in (Examples.run_refused "run_task is not allowed")))
              !! 0 = Some (Mem.Task (JStr "import") Mem.queued "alice" "" true))
      as Hqueued by (vm_compute; reflexivity).
    rewrite Hqueued in Hobj. injection Hobj as <-. discriminate.
Qed.

Lemma create_forbidden_keeps_text_witness :
  TasksController.returned
    (Examples.create_in (Examples.create_refused "alice may not import")) =
  Raise (HTTPForbidden "alice may not import") /\
  TasksController.returned
    (TasksController.run Examples.closed_gateway
       (TasksController.create Mem.principal Mem.refuse_read_only
          Examples.alice Examples.import_task)
       (Mem.empty ∅)) =
  Raise (Forbidden "no task factory for alice").
Proof.
  split.
  - refine (proj1
      (proj2 (proj2
         (create_forbidden_keeps_text Mem.principal Mem.refuse_read_only Mem.gateway
            Examples.alice Examples.import_task
            (Examples.create_refused "alice may not import")
            "alice may not import" _))
         (Examples.create_refused "alice may not import") tt
         (Examples.create_refused "alice may not import") tt _ _ _)); reflexivity.
  - refine (proj1
      (create_forbidden_keeps_text Mem.principal Mem.refuse_read_only
         Examples.closed_gateway Examples.alice Examples.import_task
         (Mem.empty ∅) "no task factory for alice" _)
      (Mem.empty ∅) _); reflexivity.
Defined.

(** C7 (as stated) fails: two refusals that differ only in the reason
    reach the caller as two different errors. *)
Lemma denial_text_reaches_caller_counterexample :
  ~ Examples.denial_carries_no_detail.
Proof.
  intros H.
  specialize (H "alice may not import" "quota exceeded").
  vm_compute in H. discriminate.
Qed.

Lemma kill_sequence_witness :
  Examples.kill_in 0 Examples.one_running =
  TasksController.Outcome
    (Mem.World
       {[ 0 := Mem.Task (JStr "import") Mem.failure "alice" "task cancelled" true ]}
       1 ∅)
    [TasksController.Called (TasksController.get_task_repo "alice");
     TasksController.Called (TasksController.repo_get tt 0);
     TasksController.Called (TasksController.task_remove 0);
     TasksController.Called (TasksController.repo_save tt 0)]
    (Return 0) /\
  TasksController.returned (Examples.kill_in 7 Examples.one_running) =
  Raise (NotFound "").
Proof.
  split.
  - refine (proj1
      (kill_sequence (Factory := unit) Mem.principal Mem.gateway Examples.alice 0
         Examples.one_running Examples.one_running tt _)
      Examples.one_running 0 _ _ _ _ _); reflexivity.
  - refine (proj2 (proj2
      (kill_sequence (Factory := unit) Mem.principal Mem.gateway Examples.alice 7
         Examples.one_running Examples.one_running tt _))
      Examples.one_running "" _); reflexivity.
Defined.

(** ** The create action *)

Section ResourceProperties.

Import TasksController.

Context {Request RequestContext TaskId Factory Repo Task W : Type}.
Variable default : Request -> result dict.
Variable gettext : string -> string.
Variable context : Request -> RequestContext.
Variable mutating_refusal : Request -> option exn.
Variable g : gateway Request RequestContext TaskId Factory Repo Task W.

(** C8: a request whose parsed content has no [body] member fails in
    the deserializer with the bad-request error (status 400) whose
    explanation is "Body expected in request." as the message catalogue
    renders it. The error comes from [_get_request_body], the first
    statement of [create], whatever else the parsed content holds: no
    key is checked, no task dict is built, and the create action ends
    there without a single call to the gateway. *)
Theorem create_without_body request output w :
  default request = Return output ->
  output !! "body" = None ->
  RequestDeserializer._get_request_body default gettext request =
    Raise (HTTPBadRequest (gettext "Body expected in request.")) /\
  RequestDeserializer.create_state default gettext request =
    Raise (HTTPBadRequest (gettext "Body expected in request.")) /\
  RequestDeserializer.create default gettext request =
    Raise (HTTPBadRequest (gettext "Body expected in request.")) /\
  status_code (HTTPBadRequest (gettext "Body expected in request.")) = Some 400%Z /\
  run g (create_action (TaskId := TaskId) (Factory := Factory) (Repo := Repo)
           (Task := Task) default gettext context mutating_refusal request) w =
    Outcome w [] (Raise (HTTPBadRequest (gettext "Body expected in request."))).
Proof.
  intros Hdef Hbody.
  assert (RequestDeserializer._get_request_body default gettext request =
          Raise (HTTPBadRequest (gettext "Body expected in request."))) as Hget.
  { unfold RequestDeserializer._get_request_body.
    rewrite Hdef. cbn. by rewrite Hbody. }
  assert (RequestDeserializer.create_state default gettext request =
          Raise (HTTPBadRequest (gettext "Body expected in request."))) as Hstate.
  { unfold RequestDeserializer.create_state. rewrite Hget. reflexivity. }
  assert (RequestDeserializer.create default gettext request =
          Raise (HTTPBadRequest (gettext "Body expected in request."))) as Hcreate.
  { unfold RequestDeserializer.create. rewrite Hstate. reflexivity. }
  repeat split; try assumption.
  unfold create_action. rewrite Hcreate. reflexivity.
Qed.

(** C2: when the body is a JSON object with one of the keys
    [direct_url], [self], [file], [schema], the deserializer raises
    [HTTPForbidden] naming a disallowed key the body has, and the
    create action ends there: the gateway is not called once (no
    factory, no repository, no task) and the world is as it was. *)
Theorem create_disallowed_forbidden request output d k w :
  default request = Return output ->
  output !! "body" = Some (JObj d) ->
  k ∈ ["direct_url"; "self"; "file"; "schema"] ->
  is_Some (d !! k) ->
  exists k',
    k' ∈ ["direct_url"; "self"; "file"; "schema"] /\
    is_Some (d !! k') /\
    RequestDeserializer.create default gettext request =
      Raise (HTTPForbidden ("Attribute '" +:+ k' +:+ "' is read-only.")) /\
    status_code (HTTPForbidden ("Attribute '" +:+ k' +:+ "' is read-only.")) =
      Some 403%Z /\
    run g (create_action (TaskId := TaskId) (Factory := Factory) (Repo := Repo)
             (Task := Task) default gettext context mutating_refusal request) w =
      Outcome w [] (Raise (HTTPForbidden ("Attribute '" +:+ k' +:+ "' is read-only."))).
Proof.
  intros Hdef Hbody Hk Hsome.
  destruct (check_keys_first _ d k Hk Hsome)
    as (before & k' & after & Hsplit & _ & Hsome' & Hcheck).
  assert (RequestDeserializer.create default gettext request =
          Raise (HTTPForbidden (RequestDeserializer.read_only_message k'))) as Hcreate.
  { unfold RequestDeserializer.create, RequestDeserializer.create_state,
      RequestDeserializer._get_request_body.
    rewrite Hdef. cbn [mbind result_bind]. rewrite Hbody. cbn [mbind result_bind].
    unfold RequestDeserializer._check_allowed, RequestDeserializer._disallowed_properties.
    rewrite Hcheck. reflexivity. }
  exists k'. split; [|split; [exact Hsome'|split; [exact Hcreate|split; [reflexivity|]]]].
  - rewrite Hsplit. apply elem_of_app. right. left.
  - unfold create_action. rewrite Hcreate. reflexivity.
Qed.

End ResourceProperties.

Lemma create_disallowed_forbidden_witness :
  exists k',
    k' ∈ ["direct_url"; "self"; "file"; "schema"] /\
    is_Some (({[ "type" := JStr "import";
                 "direct_url" := JStr "file:///etc/passwd" ]} : dict) !! k') /\
    RequestDeserializer.create Mem.parsed Examples.untranslated Examples.bob =
      Raise (HTTPForbidden ("Attribute '" +:+ k' +:+ "' is read-only.")) /\
    status_code (HTTPForbidden ("Attribute '" +:+ k' +:+ "' is read-only.")) =
      Some 403%Z /\
    TasksController.run Mem.gateway
      (create_action Mem.parsed Examples.untranslated Mem.principal
         Mem.refuse_read_only Examples.bob)
      (Mem.empty ∅) =
    TasksController.Outcome (Mem.empty ∅) []
      (Raise (HTTPForbidden ("Attribute '" +:+ k' +:+ "' is read-only."))).
Proof.
  refine (create_disallowed_forbidden Mem.parsed Examples.untranslated
            Mem.principal Mem.refuse_read_only Mem.gateway
            Examples.bob Examples.body_with_direct_url
            {[ "type" := JStr "import"; "direct_url" := JStr "file:///etc/passwd" ]}
            "direct_url" (Mem.empty ∅) _ _ _ _).
  - reflexivity.
  - reflexivity.
  - left.
  - vm_compute. eexists. reflexivity.
Defined.

(** ** The serializer *)

Section SerializerProperties.

Import ResponseSerializer.

Context {datetime : Type}.
Variable isotime : datetime -> string.
Variable schema_filter : dict -> dict.
Variable dumps : dict -> string.

Local Abbreviation _format_task := (_format_task isotime schema_filter).
Local Abbreviation get := (get isotime schema_filter dumps).
Local Abbreviation create := (create isotime schema_filter dumps).

(** [_format_task] always returns: the schema's filter applied to a
    record of eight members read off the task. *)
Lemma format_task_returns (task : Task datetime) :
  exists raw,
    _format_task task = Return (schema_filter raw) /\
    (forall k, is_Some (raw !! k) <->
       k ∈ ["id"; "type"; "status"; "owner"; "message";
            "created_at"; "updated_at"; "schema"]) /\
    raw !! "id" = Some (task_id task) /\
    raw !! "type" = Some (type task) /\
    raw !! "status" = Some (status task) /\
    raw !! "owner" = Some (owner task) /\
    raw !! "message" = Some (message task) /\
    raw !! "created_at" = Some (JStr (isotime (created_at task))) /\
    raw !! "updated_at" = Some (JStr (isotime (updated_at task))) /\
    raw !! "schema" = Some (JStr "/v2/schemas/task").
Proof.
  eexists. split; [reflexivity|]. split; [|by repeat split].
  intros k. split.
  - intros Hk. destruct (decide (k ∈ ["id"; "type"; "status"; "owner"; "message";
                                     "created_at"; "updated_at"; "schema"]))
      as [|Hnot]; [done|].
    exfalso. revert Hk.
    rewrite !lookup_insert_ne by (intros <-; apply Hnot; set_solver).
    rewrite lookup_empty. by intros [? ?].
  - intros Hk.
    repeat (apply elem_of_cons in Hk as [->|Hk]; [by eexists|]).
    by apply elem_of_nil in Hk.
Qed.

(** C10: for every task and response, [create] and [get] both return,
    and leave the same body and the same content type in the response;
    [create] leaves the status 201, [get] leaves the status it found. *)
Theorem create_body_same_as_get (response : Response) (task : Task datetime) :
  exists created fetched,
    create response task = (created, Return tt) /\
    get response task = (fetched, Return tt) /\
    unicode_body created = unicode_body fetched /\
    content_type created = content_type fetched /\
    status_int created = 201%Z /\
    status_int fetched = status_int response.
Proof.
  destruct (format_task_returns task) as (raw & Hfmt & _).
  unfold ResponseSerializer.create, ResponseSerializer.get. rewrite Hfmt.
  eexists _, _. repeat split.
Qed.

End SerializerProperties.

(** *** The serializer with a schema that keeps what it declares *)

Lemma format_sample_task_declared :
  ResponseSerializer._format_task Examples.rendered
    (filter_declared schema_properties) Examples.sample_task =
  Return {[ "id" := JStr "c80a1a6c-bd1f-41c5-90ee-81afedb1d58d";
            "type" := JStr "import";
            "status" := JStr "processing";
            "owner" := JStr "alice" ]}.
Proof. vm_compute. reflexivity. Qed.

(** The view of the sample task does not have the fields of the view
    contract: [created_at] is missing. *)
Lemma declared_schema_drops_timestamps :
  ~ Examples.serialized_fields_exact (filter_declared schema_properties)
      Examples.sample_task.
Proof.
  intros (view & Hfmt & Hall & _).
  rewrite format_sample_task_declared in Hfmt. injection Hfmt as <-.
  destruct (Hall "created_at") as [v Hv].
  - unfold Examples.view_fields. set_solver.
  - vm_compute in Hv. discriminate.
Qed.

Lemma not_declared (k : string) :
  k ∈ ["created_at"; "updated_at"; "schema"] -> k ∉ schema_properties.
Proof.
  intros Hk Hin. vm_compute in Hin.
  repeat (apply elem_of_cons in Hk as [->|Hk];
          [repeat (apply elem_of_cons in Hin as [Hin|Hin]; [discriminate|]);
           by apply elem_of_nil in Hin|]).
  by apply elem_of_nil in Hk.
Qed.

(** C5: with the schema [get_schema] builds from [_TASK_SCHEMA], the
    serialized view of a task has no [created_at], no [updated_at] and
    no [schema] member, for every task and every rendering of
    timestamps: [_format_task] sets the three and the schema's [filter]
    drops them again, because [_TASK_SCHEMA] declares none of them. On
    the sample task the view is [id], [type], [status] and [owner]. *)
Theorem format_task_loses_timestamps :
  ResponseSerializer._format_task Examples.rendered
    (filter_declared schema_properties) Examples.sample_task =
  Return {[ "id" := JStr "c80a1a6c-bd1f-41c5-90ee-81afedb1d58d";
            "type" := JStr "import";
            "status" := JStr "processing";
            "owner" := JStr "alice" ]} /\
  forall (datetime : Type) (isotime : datetime -> string)
         (task : ResponseSerializer.Task datetime),
    exists view,
      ResponseSerializer._format_task isotime
        (filter_declared schema_properties) task = Return view /\
      view !! "created_at" = None /\
      view !! "updated_at" = None /\
      view !! "schema" = None.
Proof.
  split; [exact format_sample_task_declared|].
  intros datetime isotime task.
  destruct (format_task_returns isotime (filter_declared schema_properties) task)
    as (raw & Hfmt & _).
  exists (filter_declared schema_properties raw). split; [exact Hfmt|].
  split; [|split]; apply map_lookup_filter_None; right; intros x _ [Hin _];
    revert Hin; apply not_declared.
  - left.
  - right. left.
  - right. right. left.
Qed.

Lemma create_without_body_witness :
  Mem.parsed Examples.carol = Return Examples.no_body /\
  Examples.no_body !! "body" = None /\
  RequestDeserializer.create Mem.parsed Examples.untranslated Examples.carol =
    Raise (HTTPBadRequest "Body expected in request.") /\
  TasksController.run Mem.gateway
    (create_action Mem.parsed Examples.untranslated Mem.principal
       Mem.refuse_read_only Examples.carol)
    (Mem.empty ∅) =
  TasksController.Outcome (Mem.empty ∅) []
    (Raise (HTTPBadRequest "Body expected in request.")).
Proof.
  split; [reflexivity|]. split; [reflexivity|].
  pose proof (create_without_body Mem.parsed Examples.untranslated Mem.principal
                Mem.refuse_read_only Mem.gateway Examples.carol Examples.no_body
                (Mem.empty ∅) eq_refl eq_refl) as (_ & _ & Hcreate & _ & Haction).
  exact (conj Hcreate Haction).
Defined.

(** * Further properties *)

(** ** Python's substring and membership tests *)

Lemma prefix_append (s rest : string) : String.prefix s (s +:+ rest) = true.
Proof.
  induction s as [|a s IH]; [by destruct rest|].
  change (String.prefix (String a s) (String a (s +:+ rest)) = true).
  cbn [String.prefix]. destruct (Ascii.ascii_dec a a); [exact IH|done].
Qed.

Lemma prefix_inv (s : string) : forall h,
  String.prefix s h = true -> exists rest, h = s +:+ rest.
Proof.
  induction s as [|a s IH]; intros h Hp.
  - by exists h.
  - destruct h as [|b h]; [discriminate|].
    cbn [String.prefix] in Hp.
    destruct (Ascii.ascii_dec a b) as [->|]; [|discriminate].
    destruct (IH h Hp) as [rest ->]. by exists rest.
Qed.

Lemma is_substring_occurs (needle haystack : string) :
  is_substring needle haystack = true <-> occurs_in needle haystack.
Proof.
  split.
  - induction haystack as [|c h IH]; cbn [is_substring]; intros H.
    + apply orb_true_iff in H as [H|H]; [|discriminate].
      destruct (prefix_inv _ _ H) as [rest ->]. by exists "", rest.
    + apply orb_true_iff in H as [H|H].
      * destruct (prefix_inv _ _ H) as [rest ->]. by exists "", rest.
      * destruct (IH H) as (before & after & ->).
        by exists (String c before), after.
  - intros (before & after & ->).
    induction before as [|c before IH].
    + change ("" +:+ needle +:+ after) with (needle +:+ after).
      pose proof (prefix_append needle after) as Hp.
      destruct (needle +:+ after); cbn [is_substring]; by rewrite Hp.
    + change (String c before +:+ needle +:+ after)
        with (String c (before +:+ needle +:+ after)).
      cbn [is_substring]. rewrite IH. apply orb_true_r.
Qed.

Lemma existsb_named (key : string) (l : list json) :
  existsb (fun x => match x with
                    | JStr s => String.eqb s key
                    | _ => false
                    end) l = true <-> JStr key ∈ l.
Proof.
  induction l as [|x l IH]; cbn.
  - split; [discriminate|]. intros H. by apply elem_of_nil in H.
  - rewrite orb_true_iff, IH, elem_of_cons. split.
    + intros [H|H]; [left|by right].
      destruct x; try discriminate. apply String.eqb_eq in H. by subst.
    + intros [<-|H]; [left|by right]. apply String.eqb_refl.
Qed.

(** ** The deserializer beyond JSON objects *)

Section DeserializerEdges.

Import RequestDeserializer.

Context {Request : Type}.
Variable default : Request -> result dict.
Variable gettext : string -> string.

Local Abbreviation create_state := (create_state default gettext).
Local Abbreviation create := (create default gettext).

(** [create] once the body is known. *)
Lemma create_with_body request output body :
  default request = Return output ->
  output !! "body" = Some body ->
  create_state request =
    match _check_allowed body with
    | Return _ => pop_all _base_properties (∅, body)
    | Raise e => Raise e
    end /\
  create request =
    match _check_allowed body with
    | Return _ =>
        match pop_all _base_properties (∅, body) with
        | Return st => Return {[ "task" := st.1 ]}
        | Raise e => Raise e
        end
    | Raise e => Raise e
    end.
Proof.
  intros Hdef Hbody.
  unfold RequestDeserializer.create, RequestDeserializer.create_state,
    RequestDeserializer._get_request_body.
  rewrite Hdef. cbn [mbind result_bind]. rewrite Hbody. cbn [mbind result_bind].
  by destruct (_check_allowed body) as [[]|e].
Qed.

(** The key check, for a body whose membership test is [found]. *)
Lemma check_keys_found keys body (found : string -> bool) :
  (forall k, py_in k body = Return (found k)) ->
  ((forall k, k ∈ keys -> found k = false) -> check_keys keys body = Return tt) /\
  (forall k, k ∈ keys -> found k = true ->
     exists k', k' ∈ keys /\ found k' = true /\
       check_keys keys body = Raise (HTTPForbidden (read_only_message k'))).
Proof.
  intros Hin. induction keys as [|key rest [IHclean IHfound]].
  - split; [done|]. intros k Hk. by apply elem_of_nil in Hk.
  - split.
    + intros Hclean. cbn [check_keys]. rewrite Hin. cbn [mbind result_bind].
      rewrite (Hclean key) by left. apply IHclean.
      intros k Hk. apply Hclean. by right.
    + intros k Hk Hfound. cbn [check_keys]. rewrite Hin. cbn [mbind result_bind].
      destruct (found key) eqn:Hkey.
      * exists key. split; [left|done].
      * apply elem_of_cons in Hk as [->|Hk]; [congruence|].
        destruct (IHfound k Hk Hfound) as (k' & Hk' & Hf & Hc).
        exists k'. split; [by right|done].
Qed.

Lemma check_keys_raise_cases keys body e :
  check_keys keys body = Raise e ->
  e = TypeError \/
  exists k, k ∈ keys /\ e = HTTPForbidden (read_only_message k).
Proof.
  induction keys as [|key rest IH]; cbn [check_keys]; [discriminate|].
  destruct (py_in key body) as [[]|e'] eqn:Hin; cbn [mbind result_bind].
  - intros [= <-]. right. exists key. split; [left|reflexivity].
  - intros H. destruct (IH H) as [->|(k & Hk & ->)]; [by left|].
    right. exists k. split; [by right|reflexivity].
  - intros [= <-]. left. destruct body; cbn in Hin; congruence.
Qed.

(** The key check on an object stops at the first listed key present. *)
Lemma check_keys_stops_at before k after d :
  (forall j, j ∈ before -> d !! j = None) ->
  is_Some (d !! k) ->
  check_keys (before ++ k :: after)%list (JObj d) =
    Raise (HTTPForbidden (read_only_message k)).
Proof.
  intros Hbefore Hk. induction before as [|j before IH].
  - cbn. by rewrite bool_decide_eq_true_2.
  - cbn. rewrite (Hbefore j) by left.
    rewrite bool_decide_eq_false_2 by (intros [? ?]; discriminate).
    cbn [mbind result_bind]. apply IH. intros i Hi. apply Hbefore. by right.
Qed.

(** X1. When the body has several disallowed keys, the error names the one
    that comes first in [direct_url], [self], [file], [schema]. *)
Theorem create_names_first_disallowed request output d before k after :
  default request = Return output ->
  output !! "body" = Some (JObj d) ->
  ["direct_url"; "self"; "file"; "schema"] = (before ++ k :: after)%list ->
  (forall j, j ∈ before -> d !! j = None) ->
  is_Some (d !! k) ->
  create request = Raise (HTTPForbidden ("Attribute '" +:+ k +:+ "' is read-only.")).
Proof.
  intros Hdef Hbody Hsplit Hbefore Hk.
  destruct (create_with_body request output _ Hdef Hbody) as [_ ->].
  unfold _check_allowed, _disallowed_properties. rewrite Hsplit.
  by rewrite check_keys_stops_at.
Qed.

(** X2. A body that is [null], a boolean or a number makes [create] raise
    [TypeError]: the key check cannot look into it. *)
Theorem create_scalar_body request output body :
  default request = Return output ->
  output !! "body" = Some body ->
  not_iterable body = true ->
  create request = Raise TypeError.
Proof.
  intros Hdef Hbody Hscalar.
  destruct (create_with_body request output _ Hdef Hbody) as [_ ->].
  by destruct body.
Qed.

(** X3. A body that is a JSON list never gets through: if one of its
    elements is the name of a disallowed key, [create] raises
    [HTTPForbidden] about such a name; otherwise it raises [TypeError],
    from [pop]. *)
Theorem create_list_body request output l :
  default request = Return output ->
  output !! "body" = Some (JArr l) ->
  (forall k, k ∈ ["direct_url"; "self"; "file"; "schema"] -> JStr k ∈ l ->
     exists k', k' ∈ ["direct_url"; "self"; "file"; "schema"] /\ JStr k' ∈ l /\
       create request =
         Raise (HTTPForbidden ("Attribute '" +:+ k' +:+ "' is read-only."))) /\
  ((forall k, k ∈ ["direct_url"; "self"; "file"; "schema"] -> JStr k ∉ l) ->
   create request = Raise TypeError).
Proof.
  intros Hdef Hbody.
  destruct (create_with_body request output _ Hdef Hbody) as [_ ->].
  set (found := fun key => existsb (fun x => match x with
                                             | JStr s => String.eqb s key
                                             | _ => false
                                             end) l).
  destruct (check_keys_found _disallowed_properties (JArr l) found)
    as [Hclean Hfound]; [done|].
  split.
  - intros k Hk Hin.
    destruct (Hfound k Hk) as (k' & Hk' & Hf & Hc); [by apply existsb_named|].
    exists k'. split; [exact Hk'|]. split; [by apply existsb_named|].
    unfold _check_allowed. by rewrite Hc.
  - intros Hnone. unfold _check_allowed. rewrite Hclean; [reflexivity|].
    intros k Hk. destruct (found k) eqn:Hf; [|reflexivity].
    apply existsb_named in Hf. by destruct (Hnone k Hk).
Qed.

(** X4. A body that is a JSON string never gets through either: if the name
    of a disallowed key occurs in it, as in "do it yourself", [create]
    raises [HTTPForbidden] about such a name; otherwise it raises
    [AttributeError], from [pop]. *)
Theorem create_string_body request output s :
  default request = Return output ->
  output !! "body" = Some (JStr s) ->
  (forall k, k ∈ ["direct_url"; "self"; "file"; "schema"] -> occurs_in k s ->
     exists k', k' ∈ ["direct_url"; "self"; "file"; "schema"] /\ occurs_in k' s /\
       create request =
         Raise (HTTPForbidden ("Attribute '" +:+ k' +:+ "' is read-only."))) /\
  ((forall k, k ∈ ["direct_url"; "self"; "file"; "schema"] -> ~ occurs_in k s) ->
   create request = Raise AttributeError).
Proof.
  intros Hdef Hbody.
  destruct (create_with_body request output _ Hdef Hbody) as [_ ->].
  destruct (check_keys_found _disallowed_properties (JStr s)
              (fun key => is_substring key s)) as [Hclean Hfound]; [done|].
  split.
  - intros k Hk Hin.
    destruct (Hfound k Hk) as (k' & Hk' & Hf & Hc); [by apply is_substring_occurs|].
    exists k'. split; [exact Hk'|]. split; [by apply is_substring_occurs|].
    unfold _check_allowed. by rewrite Hc.
  - intros Hnone. unfold _check_allowed. rewrite Hclean; [reflexivity|].
    intros k Hk. destruct (is_substring k s) eqn:Hf; [|reflexivity].
    apply is_substring_occurs in Hf. by destruct (Hnone k Hk).
Qed.

End DeserializerEdges.

(** ** The deserializer on JSON objects *)

Section DeserializerObjects.

Import RequestDeserializer.

Context {Request : Type}.
Variable default : Request -> result dict.
Variable gettext : string -> string.

Local Abbreviation create_state := (create_state default gettext).
Local Abbreviation create := (create default gettext).

(** X5. Popping splits the body: after [create] on an object without
    disallowed keys every member of the body is either in the task dict
    or still in the body, never in both, with the value it had; what
    stays behind has none of the base properties. *)
Theorem create_splits_body request output d :
  default request = Return output ->
  output !! "body" = Some (JObj d) ->
  (forall k, k ∈ ["direct_url"; "self"; "file"; "schema"] -> d !! k = None) ->
  exists task rest,
    create_state request = Return (task, JObj rest) /\
    create request = Return {[ "task" := task ]} /\
    task ∪ rest = d /\
    task ##ₘ rest /\
    (forall k, k ∈ ["type"; "status"; "owner"] -> rest !! k = None).
Proof.
  intros Hdef Hbody Hclean.
  destruct (create_clean default gettext request output d Hdef Hbody Hclean)
    as (task & rest & Hstate & Hcreate & Htask & Hrest).
  exists task, rest. split; [exact Hstate|]. split; [exact Hcreate|].
  split; [|split].
  - apply map_eq. intros k. rewrite lookup_union, Htask, Hrest.
    destruct (decide (k ∈ _base_properties)); by destruct (d !! k).
  - apply map_disjoint_spec. intros k x y. rewrite Htask, Hrest.
    by destruct (decide (k ∈ _base_properties)).
  - intros k Hk. rewrite Hrest. by rewrite decide_True.
Qed.

(** X6. The errors [create] can end in: the one [default] raised, the
    bad-request error for a missing body, [HTTPForbidden] about one of
    the four disallowed keys, [TypeError] or [AttributeError]. The
    [KeyError] of a missing base property never leaves [create]. *)
Theorem create_raise_cases request e :
  create request = Raise e ->
  default request = Raise e \/
  e = HTTPBadRequest (gettext "Body expected in request.") \/
  (exists k, k ∈ ["direct_url"; "self"; "file"; "schema"] /\
             e = HTTPForbidden ("Attribute '" +:+ k +:+ "' is read-only.")) \/
  e = TypeError \/
  e = AttributeError.
Proof.
  intros Hraise.
  destruct (default request) as [output|e'] eqn:Hdef.
  - destruct (output !! "body") as [body|] eqn:Hbody.
    + destruct (create_with_body default gettext request output body Hdef Hbody)
        as [_ Hcreate].
      rewrite Hcreate in Hraise.
      destruct (_check_allowed body) as [[]|e'] eqn:Hcheck.
      * destruct body as [| | | | | |d].
        7: { destruct (pop_all_obj _base_properties ∅ d) as (task & rest & Hpop & _).
             rewrite Hpop in Hraise. discriminate. }
        all: cbn in Hraise; injection Hraise as <-; auto 10.
      * injection Hraise as ->.
        destruct (check_keys_raise_cases _ _ _ Hcheck) as [->|(k & Hk & ->)];
          [auto 10|].
        right. right. left. by exists k.
    + right. left.
      unfold RequestDeserializer.create, RequestDeserializer.create_state,
        RequestDeserializer._get_request_body in Hraise.
      rewrite Hdef in Hraise. cbn [mbind result_bind] in Hraise.
      rewrite Hbody in Hraise. by injection Hraise as <-.
  - left.
    unfold RequestDeserializer.create, RequestDeserializer.create_state,
      RequestDeserializer._get_request_body in Hraise.
    rewrite Hdef in Hraise. cbn [mbind result_bind] in Hraise.
    by injection Hraise as <-.
Qed.

(** X7. What [create] returns depends on the base properties alone: two
    object bodies without disallowed keys that agree on [type], [status]
    and [owner] give the same keyword arguments, whatever else they
    carry. *)
Theorem create_ignores_other_keys request1 request2 output1 output2 d1 d2 :
  default request1 = Return output1 ->
  default request2 = Return output2 ->
  output1 !! "body" = Some (JObj d1) ->
  output2 !! "body" = Some (JObj d2) ->
  (forall k, k ∈ ["direct_url"; "self"; "file"; "schema"] ->
     d1 !! k = None /\ d2 !! k = None) ->
  (forall k, k ∈ ["type"; "status"; "owner"] -> d1 !! k = d2 !! k) ->
  exists kwargs, create request1 = Return kwargs /\ create request2 = Return kwargs.
Proof.
  intros Hdef1 Hdef2 Hbody1 Hbody2 Hclean Hsame.
  destruct (create_clean default gettext request1 output1 d1 Hdef1 Hbody1)
    as (task1 & ? & _ & Hcreate1 & Htask1 & _); [intros k Hk; by apply Hclean|].
  destruct (create_clean default gettext request2 output2 d2 Hdef2 Hbody2)
    as (task2 & ? & _ & Hcreate2 & Htask2 & _); [intros k Hk; by apply Hclean|].
  exists {[ "task" := task1 ]}. split; [exact Hcreate1|].
  rewrite Hcreate2. do 2 f_equal. apply map_eq. intros k.
  rewrite Htask1, Htask2.
  destruct (decide (k ∈ _base_properties)); [symmetry; by apply Hsame|reflexivity].
Qed.

(** X8. Every key [create] forwards is a property the task schema declares,
    and none is a disallowed key. *)
Theorem create_forwards_declared_keys request kwargs task k :
  create request = Return kwargs ->
  kwargs !! "task" = Some task ->
  is_Some (task !! k) ->
  k ∈ _TASK_SCHEMA.*1 /\ k ∉ ["direct_url"; "self"; "file"; "schema"].
Proof.
  intros Hcreate Htask Hk.
  destruct (create_returns_inv default gettext request kwargs Hcreate)
    as (d & task' & _ & _ & -> & Hfields).
  rewrite lookup_singleton_eq in Htask. injection Htask as ->.
  rewrite Hfields in Hk.
  destruct (decide (k ∈ _base_properties)) as [Hbase|]; [|by destruct Hk].
  unfold _base_properties in Hbase.
  repeat (apply elem_of_cons in Hbase as [->|Hbase];
          [split; [vm_compute; set_solver|
                   intros Hin;
                   repeat (apply elem_of_cons in Hin as [Hin|Hin]; [discriminate|]);
                   by apply elem_of_nil in Hin]|]).
  by apply elem_of_nil in Hbase.
Qed.

End DeserializerObjects.

(** *** On concrete requests *)

Lemma create_names_first_disallowed_witness :
  Examples.deserialize Examples.body_with_schema_and_self =
  Raise (HTTPForbidden "Attribute 'self' is read-only.").
Proof.
  refine (create_names_first_disallowed Examples.decoded Examples.untranslated
            Examples.body_with_schema_and_self Examples.body_with_schema_and_self
            {[ "schema" := JStr "/v2/schemas/image"; "self" := JStr "/v2/tasks/1";
               "type" := JStr "import" ]}
            ["direct_url"] "self" ["file"; "schema"] _ _ _ _ _).
  - reflexivity.
  - reflexivity.
  - reflexivity.
  - apply Forall_forall. repeat constructor.
  - vm_compute. eexists. reflexivity.
Defined.

Lemma create_scalar_body_witness :
  Examples.deserialize Examples.body_is_number = Raise TypeError.
Proof.
  refine (create_scalar_body Examples.decoded Examples.untranslated
            Examples.body_is_number Examples.body_is_number (JInt 42) _ _ _);
    reflexivity.
Defined.

Lemma create_list_body_witness :
  (exists k', k' ∈ ["direct_url"; "self"; "file"; "schema"] /\
     JStr k' ∈ [JStr "type"; JStr "file"] /\
     Examples.deserialize Examples.body_is_list_of_names =
       Raise (HTTPForbidden ("Attribute '" +:+ k' +:+ "' is read-only."))) /\
  Examples.deserialize Examples.body_is_list_of_types = Raise TypeError.
Proof.
  split.
  - refine (proj1 (create_list_body Examples.decoded Examples.untranslated
                     Examples.body_is_list_of_names Examples.body_is_list_of_names
                     [JStr "type"; JStr "file"] _ _) "file" _ _).
    + reflexivity.
    + reflexivity.
    + right. right. left.
    + right. left.
  - refine (proj2 (create_list_body Examples.decoded Examples.untranslated
                     Examples.body_is_list_of_types Examples.body_is_list_of_types
                     [JStr "import"; JInt 1] _ _) _).
    + reflexivity.
    + reflexivity.
    + apply Forall_forall.
      repeat constructor; intros Hin;
        repeat (apply elem_of_cons in Hin as [Hin|Hin]; [discriminate|]);
        by apply elem_of_nil in Hin.
Defined.

Lemma create_string_body_witness :
  (exists k', k' ∈ ["direct_url"; "self"; "file"; "schema"] /\
     occurs_in k' "do it yourself" /\
     Examples.deserialize Examples.body_is_string =
       Raise (HTTPForbidden ("Attribute '" +:+ k' +:+ "' is read-only."))) /\
  Examples.deserialize Examples.body_is_plain_string = Raise AttributeError.
Proof.
  split.
  - refine (proj1 (create_string_body Examples.decoded Examples.untranslated
                     Examples.body_is_string Examples.body_is_string
                     "do it yourself" _ _) "self" _ _).
    + reflexivity.
    + reflexivity.
    + right. left.
    + exists "do it your", "". reflexivity.
  - refine (proj2 (create_string_body Examples.decoded Examples.untranslated
                     Examples.body_is_plain_string Examples.body_is_plain_string
                     "import" _ _) _).
    + reflexivity.
    + reflexivity.
    + apply Forall_forall.
      repeat constructor; intros Hocc%is_substring_occurs;
        vm_compute in Hocc; discriminate.
Defined.

Lemma create_splits_body_witness :
  exists task rest,
    RequestDeserializer.create_state Examples.decoded Examples.untranslated
      Examples.body_with_extra_key = Return (task, JObj rest) /\
    Examples.deserialize Examples.body_with_extra_key = Return {[ "task" := task ]} /\
    task ∪ rest = {[ "type" := JStr "import"; "owner" := JStr "alice";
                     "colour" := JStr "red" ]} /\
    task ##ₘ rest /\
    (forall k, k ∈ ["type"; "status"; "owner"] -> rest !! k = None).
Proof.
  refine (create_splits_body Examples.decoded Examples.untranslated
            Examples.body_with_extra_key Examples.body_with_extra_key _ _ _ _).
  - reflexivity.
  - reflexivity.
  - apply Forall_forall. repeat constructor.
Defined.

Lemma create_raise_cases_witness :
  Examples.decoded Examples.body_is_list = Raise TypeError \/
  TypeError = HTTPBadRequest "Body expected in request." \/
  (exists k, k ∈ ["direct_url"; "self"; "file"; "schema"] /\
             TypeError = HTTPForbidden ("Attribute '" +:+ k +:+ "' is read-only.")) \/
  TypeError = TypeError \/
  TypeError = AttributeError.
Proof.
  refine (create_raise_cases Examples.decoded Examples.untranslated
            Examples.body_is_list TypeError _).
  vm_compute. reflexivity.
Defined.

Lemma create_ignores_other_keys_witness :
  exists kwargs,
    Examples.deserialize Examples.body_with_extra_key = Return kwargs /\
    Examples.deserialize Examples.body_with_other_extra_key = Return kwargs.
Proof.
  refine (create_ignores_other_keys Examples.decoded Examples.untranslated
            Examples.body_with_extra_key Examples.body_with_other_extra_key
            Examples.body_with_extra_key Examples.body_with_other_extra_key
            {[ "type" := JStr "import"; "owner" := JStr "alice";
               "colour" := JStr "red" ]}
            {[ "type" := JStr "import"; "owner" := JStr "alice"; "size" := JInt 3 ]}
            _ _ _ _ _ _).
  - reflexivity.
  - reflexivity.
  - reflexivity.
  - reflexivity.
  - apply Forall_forall. repeat constructor.
  - apply Forall_forall. repeat constructor.
Defined.

Lemma create_forwards_declared_keys_witness :
  "owner" ∈ _TASK_SCHEMA.*1 /\ "owner" ∉ ["direct_url"; "self"; "file"; "schema"].
Proof.
  refine (create_forwards_declared_keys Examples.decoded Examples.untranslated
            Examples.body_with_extra_key
            {[ "task" := {[ "type" := JStr "import"; "owner" := JStr "alice" ]} ]}
            {[ "type" := JStr "import"; "owner" := JStr "alice" ]} "owner" _ _ _).
  - vm_compute. reflexivity.
  - reflexivity.
  - vm_compute. eexists. reflexivity.
Defined.

(** ** The controller: what passes through and what is never called *)

Section ControllerEdges.

Import TasksController.

Context {Request RequestContext TaskId Factory Repo Task W : Type}.
Variable context : Request -> RequestContext.
Variable mutating_refusal : Request -> option exn.
Variable g : gateway Request RequestContext TaskId Factory Repo Task W.

Local Abbreviation create := (create (TaskId := TaskId) context mutating_refusal).
Local Abbreviation index := (index (TaskId := TaskId) (Factory := Factory) context).
Local Abbreviation get := (get (Factory := Factory) context).
Local Abbreviation kill := (kill (Factory := Factory) context).

Local Ltac answer H := cbn; rewrite H; cbn.

Local Ltac all_answers :=
  repeat match goal with
         | |- context [g ?X ?c ?w0] => destruct (g X c w0) as [? [?|[]]]; cbn
         end.

(** [create] past the guard, with the factory and the repository in
    hand: the two calls that fetched them, then the [try] statement. *)
Lemma run_create_opened req task w w1 w2 f r :
  mutating_refusal req = None ->
  g _ (get_task_factory (context req)) w = (w1, Return f) ->
  g _ (get_task_repo (context req)) w1 = (w2, Return r) ->
  run g (create req task) w =
  logged (Called (get_task_factory (context req)))
    (logged (Called (get_task_repo (context req)))
       (run g (try_except (create_steps f r req task) forbidden_to_http) w2)).
Proof.
  intros Hguard Hf Hr. unfold TasksController.create, mutating. rewrite Hguard.
  answer Hf. answer Hr. reflexivity.
Qed.

(** X9. The two gateway calls at the top of [create] are outside the [try]:
    what [get_task_factory] or [get_task_repo] raises reaches the caller
    as it is, a [Forbidden] too, and nothing after the failing call is
    called. *)
Theorem create_gateway_errors_pass req task w :
  mutating_refusal req = None ->
  (forall w1 e,
     g _ (get_task_factory (context req)) w = (w1, Raise e) ->
     run g (create req task) w =
     Outcome w1 [Called (get_task_factory (context req))] (Raise e)) /\
  (forall w1 f w2 e,
     g _ (get_task_factory (context req)) w = (w1, Return f) ->
     g _ (get_task_repo (context req)) w1 = (w2, Raise e) ->
     run g (create req task) w =
     Outcome w2
       [Called (get_task_factory (context req));
        Called (get_task_repo (context req))]
       (Raise e)).
Proof.
  intros Hguard. unfold TasksController.create, mutating. rewrite Hguard. split.
  - intros w1 e Hf. by answer Hf.
  - intros w1 f w2 e Hf Hr. answer Hf. by answer Hr.
Qed.

(** X10. Only [Forbidden] is translated: any other exception that ends the
    [try] block of [create] (a conflict in [add], an illegal transition
    in [run], ...) reaches the caller unchanged, with the world and the
    calls as the block left them. *)
Theorem create_other_errors_pass req task w w1 w2 f r e :
  mutating_refusal req = None ->
  g _ (get_task_factory (context req)) w = (w1, Return f) ->
  g _ (get_task_repo (context req)) w1 = (w2, Return r) ->
  returned (run g (create_steps f r req task) w2) = Raise e ->
  (forall text, e <> Forbidden text) ->
  run g (create req task) w =
  Outcome (world (run g (create_steps f r req task) w2))
    (Called (get_task_factory (context req)) ::
     Called (get_task_repo (context req)) ::
     trace (run g (create_steps f r req task) w2))
    (Raise e).
Proof.
  intros Hguard Hf Hr Hsteps Hother.
  rewrite (run_create_opened req task w w1 w2 f r Hguard Hf Hr).
  rewrite run_try_except, Hsteps.
  assert (forbidden_to_http (Task := Task) e =
          Throw (Request := Request) (RequestContext := RequestContext)
            (TaskId := TaskId) (Factory := Factory) (Repo := Repo) e) as ->.
  { destruct e; try reflexivity. by destruct (Hother text). }
  unfold logged. cbn. by rewrite app_nil_r.
Qed.


(** X12. [create] never saves: whatever the gateway answers, it makes at most
    five calls and none of them is [task_repo.save], so what [run()] did
    to the task after [add] is not written back by the controller. *)
Theorem create_never_saves req task w :
  length (trace (run g (create req task) w)) <= 5 /\
  existsb saves (trace (run g (create req task) w)) = false.
Proof.
  unfold TasksController.create, mutating.
  destruct (mutating_refusal req); cbn; [split; [lia|reflexivity]|].
  all_answers; split; first [lia | reflexivity].
Qed.

(** X13. [kill] stops at the first failing call: when [remove()] raises, the
    error reaches the caller and [save] is not called; when [save]
    raises, the error reaches the caller after [remove()] has been
    applied. *)
Theorem kill_stops_at_failure req task_id w w1 r w2 t :
  g _ (get_task_repo (context req)) w = (w1, Return r) ->
  g _ (repo_get r task_id) w1 = (w2, Return t) ->
  (forall w3 e,
     g _ (task_remove t) w2 = (w3, Raise e) ->
     run g (kill req task_id) w =
     Outcome w3
       [Called (get_task_repo (context req));
        Called (repo_get r task_id);
        Called (task_remove t)]
       (Raise e)) /\
  (forall w3 w4 e,
     g _ (task_remove t) w2 = (w3, Return tt) ->
     g _ (repo_save r t) w3 = (w4, Raise e) ->
     run g (kill req task_id) w =
     Outcome w4
       [Called (get_task_repo (context req));
        Called (repo_get r task_id);
        Called (task_remove t);
        Called (repo_save r t)]
       (Raise e)).
Proof.
  intros Hr Hget. unfold TasksController.kill. split.
  - intros w3 e Hremove. answer Hr. answer Hget. by answer Hremove.
  - intros w3 w4 e Hremove Hsave.
    answer Hr. answer Hget. answer Hremove. by answer Hsave.
Qed.

End ControllerEdges.

(** *** Over the in-memory domain layer *)

Lemma create_gateway_errors_pass_witness :
  TasksController.run Examples.closed_gateway
    (TasksController.create Mem.principal Mem.refuse_read_only
       Examples.alice Examples.import_task)
    (Mem.empty ∅) =
  TasksController.Outcome (Mem.empty ∅)
    [TasksController.Called (TasksController.get_task_factory "alice")]
    (Raise (Forbidden "no task factory for alice")).
Proof.
  refine (proj1
    (create_gateway_errors_pass Mem.principal Mem.refuse_read_only
       Examples.closed_gateway Examples.alice Examples.import_task (Mem.empty ∅) _)
    (Mem.empty ∅) (Forbidden "no task factory for alice") _); reflexivity.
Defined.

Lemma create_other_errors_pass_witness :
  TasksController.run Mem.gateway
    (TasksController.create Mem.principal Mem.refuse_read_only
       Examples.alice Examples.bogus_task)
    (Mem.empty ∅) =
  TasksController.Outcome (Mem.empty ∅)
    [TasksController.Called (TasksController.get_task_factory "alice");
     TasksController.Called (TasksController.get_task_repo "alice");
     TasksController.Called
       (TasksController.new_task tt Examples.alice Examples.bogus_task)]
    (Raise (OtherError "ValidationError" "type")).
Proof.
  refine (create_other_errors_pass Mem.principal Mem.refuse_read_only Mem.gateway
            Examples.alice Examples.bogus_task (Mem.empty ∅) (Mem.empty ∅)
            (Mem.empty ∅) tt tt (OtherError "ValidationError" "type") _ _ _ _ _).
  - reflexivity.
  - reflexivity.
  - reflexivity.
  - reflexivity.
  - intros text. discriminate.
Defined.

Lemma kill_stops_at_failure_witness :
  Examples.kill_in 0 Examples.one_finished =
  TasksController.Outcome Examples.one_finished
    [TasksController.Called (TasksController.get_task_repo "alice");
     TasksController.Called (TasksController.repo_get tt 0);
     TasksController.Called (TasksController.task_remove 0)]
    (Raise (OtherError "InvalidStateTransition" "")).
Proof.
  refine (proj1
    (kill_stops_at_failure (Factory := unit) Mem.principal Mem.gateway Examples.alice 0
       Examples.one_finished Examples.one_finished tt Examples.one_finished 0 _ _)
    Examples.one_finished (OtherError "InvalidStateTransition" "") _); reflexivity.
Defined.

(** ** The serializer: repeated use and what the view can hold *)

Section SerializerEdges.

Import ResponseSerializer.

Context {datetime : Type}.
Variable isotime : datetime -> string.
Variable schema_filter : dict -> dict.
Variable dumps : dict -> string.

Local Abbreviation _format_task := (_format_task isotime schema_filter).
Local Abbreviation get := (get isotime schema_filter dumps).
Local Abbreviation create := (create isotime schema_filter dumps).

(** X14. Serializing into a response that was already serialized into changes
    nothing more: [get] twice is [get] once, [create] twice is [create]
    once, a [get] after a [create] keeps the status 201, and a [create]
    after a [get] is a [create]. *)
Theorem serializer_repeated (response : Response) (task : Task datetime) :
  get (get response task).1 task = get response task /\
  create (create response task).1 task = create response task /\
  get (create response task).1 task = create response task /\
  create (get response task).1 task = create response task.
Proof.
  destruct (format_task_returns isotime schema_filter task) as (raw & Hfmt & _).
  unfold ResponseSerializer.create, ResponseSerializer.get. rewrite Hfmt.
  cbn. rewrite ?Hfmt. by repeat split.
Qed.

(** X15. With a schema whose [filter] only drops members, the view never holds
    anything that was not read off the task: its keys are among the
    eight of the record, each with the record's value, and there is no
    [expires_at], although the schema declares one. *)
Theorem view_within_record (task : Task datetime) :
  (forall v : dict, schema_filter v ⊆ v) ->
  exists view,
    _format_task task = Return view /\
    (forall k, is_Some (view !! k) ->
       k ∈ ["id"; "type"; "status"; "owner"; "message";
            "created_at"; "updated_at"; "schema"]) /\
    view !! "expires_at" = None /\
    (forall v, view !! "id" = Some v -> v = task_id task) /\
    (forall v, view !! "type" = Some v -> v = type task) /\
    (forall v, view !! "status" = Some v -> v = status task) /\
    (forall v, view !! "owner" = Some v -> v = owner task) /\
    (forall v, view !! "message" = Some v -> v = message task) /\
    (forall v, view !! "created_at" = Some v -> v = JStr (isotime (created_at task))) /\
    (forall v, view !! "updated_at" = Some v -> v = JStr (isotime (updated_at task))) /\
    (forall v, view !! "schema" = Some v -> v = JStr "/v2/schemas/task").
Proof.
  intros Hdrops.
  destruct (format_task_returns isotime schema_filter task)
    as (raw & Hfmt & Hkeys & Hid & Htype & Hstatus & Howner & Hmessage &
        Hcreated & Hupdated & Hschema).
  exists (schema_filter raw). split; [exact Hfmt|].
  assert (forall k v, schema_filter raw !! k = Some v -> raw !! k = Some v) as Hsub.
  { intros k v Hv. by apply (lookup_weaken (schema_filter raw) raw). }
  split; [|split].
  - intros k [v Hv]. apply Hkeys. exists v. by apply Hsub.
  - destruct (schema_filter raw !! "expires_at") as [v|] eqn:Hv; [|reflexivity].
    apply Hsub in Hv. assert (is_Some (raw !! "expires_at")) as Hin by by exists v.
    apply Hkeys in Hin.
    repeat (apply elem_of_cons in Hin as [Hin|Hin]; [discriminate|]).
    by apply elem_of_nil in Hin.
  - repeat split; intros v Hv%Hsub; congruence.
Qed.

End SerializerEdges.

Lemma view_within_record_witness :
  exists view,
    ResponseSerializer._format_task Examples.rendered
      (filter_declared schema_properties) Examples.sample_task = Return view /\
    view !! "expires_at" = None.
Proof.
  destruct (view_within_record Examples.rendered (filter_declared schema_properties)
              Examples.sample_task (fun v => map_filter_subseteq _ v))
    as (view & Hfmt & _ & Hexpires & _).
  exists view. exact (conj Hfmt Hexpires).
Defined.
